(** * YukarinetteXSOverlayBridge: the session layer and the message stabilizer

    A shallow embedding of
      - [modules/translation_logger.py]  (class [TranslationLogger]),
      - [modules/yukacone_client.py]     (class [YukaconeClient]),
      - [modules/media_controller.py]    (class [MediaKeyController]),
    together with the properties the specification states about them.

    Conventions of the embedding.
      - A Python dict with a documented shape is a record whose fields are
        [option]s: [None] is "key absent" (what [dict.get] answers with its
        default).
      - Readings of [time.time()] and delays are rationals ([Q]): every
        finite binary float is one, and the only arithmetic the code does on
        them is a difference, a comparison, a [min] and a scaling by a power
        of two.  The rounding of the difference is not modelled; the
        conversion of an integer to a float is, where it can fail.
      - What a method does to the outside world (lines appended to the log
        file, HTTP requests, callbacks, sleeps) is recorded as data: a list
        of finalized records for the logger, a trace of events for the
        client and the key router.
      - What the outside world answers (clock readings, whether a write or a
        request succeeds) is an explicit argument.
      - The callbacks handed to the objects are taken to return normally;
        log messages are left out. *)

From Stdlib Require Import String List Bool Arith ZArith QArith Qminmax Lia.
Import ListNotations.

Local Open Scope string_scope.
Local Open Scope list_scope.

(** [dict.get(key, default)] on an optional field. *)
Definition get_default {A : Type} (field : option A) (default : A) : A :=
  match field with
  | Some v => v
  | None => default
  end.

(* ===================================================================== *)
(** * modules/translation_logger.py                                       *)
(* ===================================================================== *)

Module TranslationLogger.

(** One element of [textList]: [{"Lang": ..., "Text": ...}]. *)
Record entry : Type := mkEntry {
  Lang : option string;
  Text : option string
}.

(** The JSON record received from the streaming endpoint:
    [{"MessageID": ..., "textList": [...]}].  A JSON [null] reads as [None]
    through [dict.get], like an absent key. *)
Record yukacone_data : Type := mkData {
  MessageID : option string;
  textList : option (list entry)
}.

(** The internal dict [{MsgID, Lang1, Text1, Lang2, Text2}]. *)
Record msg : Type := mkMsg {
  MsgID : option string;
  Lang1 : option string;
  Text1 : option string;
  Lang2 : option string;
  Text2 : option string
}.

(** Truth value of the internal dict: a dict is true when it has a key. *)
Definition dict_truthy (m : msg) : bool :=
  match MsgID m, Lang1 m, Text1 m, Lang2 m, Text2 m with
  | None, None, None, None, None => false
  | _, _, _, _, _ => true
  end.

(** What one flush did: the payload it finalized, the line it formatted,
    whether the line reached the file (the [open]/[write] did not raise) and
    whether [on_message_logged] was called with the payload. *)
Record FinalizedRecord : Type := mkFinalized {
  payload : msg;
  line : string;
  written : bool;
  notified : bool
}.

(** What the environment supplies to a flush: [datetime.now()] already
    formatted, and whether appending to the log file succeeds. *)
Record flush_env : Type := mkFlushEnv {
  timestamp : string;
  write_ok : bool
}.

(** The object state.  [on_message_logged] records whether a callback is
    installed; [_thread] whether [self._thread is not None]. *)
Record t : Type := mkLogger {
  stable_sec : Q;
  flush_interval : Q;
  on_message_logged : bool;
  current_id : option string;
  last_data : option msg;
  last_update_time : option Q;
  _stop : bool;
  _thread : bool
}.

Definition set_pending (self : t) (i : option string) (d : option msg)
    (u : option Q) : t :=
  {| stable_sec := stable_sec self;
     flush_interval := flush_interval self;
     on_message_logged := on_message_logged self;
     current_id := i;
     last_data := d;
     last_update_time := u;
     _stop := _stop self;
     _thread := _thread self |}.

Definition set_thread (self : t) (stop thread : bool) : t :=
  {| stable_sec := stable_sec self;
     flush_interval := flush_interval self;
     on_message_logged := on_message_logged self;
     current_id := current_id self;
     last_data := last_data self;
     last_update_time := last_update_time self;
     _stop := stop;
     _thread := thread |}.

(** [__init__] *)
Definition __init__ (stable interval : Q) (callback : bool) : t :=
  {| stable_sec := stable;
     flush_interval := interval;
     on_message_logged := callback;
     current_id := None;
     last_data := None;
     last_update_time := None;
     _stop := false;
     _thread := false |}.

(** [data.get("textList") or []] *)
Definition text_list_of (data : yukacone_data) : list entry :=
  get_default (textList data) [].

(** [_convert_to_internal_format] *)
Definition _convert_to_internal_format (data : yukacone_data) : option msg :=
  match MessageID data with
  | None => None
  | Some msg_id =>
      match text_list_of data with
      | e0 :: e1 :: _ =>
          Some {| MsgID := Some msg_id;
                  Lang1 := Some (get_default (Lang e0) "");
                  Text1 := Some (get_default (Text e0) "");
                  Lang2 := Some (get_default (Lang e1) "");
                  Text2 := Some (get_default (Text e1) "") |}
      | _ => None
      end
  end.

(** The line [f"{timestamp},{lang1}:{text1},{lang2}:{text2}"]. *)
Definition format_line (ts : string) (m : msg) : string :=
  (ts ++ "," ++ get_default (Lang1 m) "" ++ ":" ++ get_default (Text1 m) ""
      ++ "," ++ get_default (Lang2 m) "" ++ ":" ++ get_default (Text2 m) "")%string.

(** [_flush_locked]: returns the new state and the records it finalized. *)
Definition _flush_locked (env : flush_env) (self : t)
    : t * list FinalizedRecord :=
  match last_data self with
  | None => (self, [])
  | Some d =>
      if negb (dict_truthy d) then (self, [])
      else
        (set_pending self None None None,
         [ {| payload := d;
              line := format_line (timestamp env) d;
              written := write_ok env;
              notified := on_message_logged self |} ])
  end.

(** [_add_message_internal], with [now = time.time()]. *)
Definition _add_message_internal (m : msg) (now : Q) (env : flush_env)
    (self : t) : t * list FinalizedRecord :=
  match MsgID m with
  | None => (self, [])
  | Some msg_id =>
      match current_id self with
      | None => (set_pending self (Some msg_id) (Some m) (Some now), [])
      | Some cur =>
          if negb (String.eqb msg_id cur) then
            let (self1, out) := _flush_locked env self in
            (set_pending self1 (Some msg_id) (Some m) (Some now), out)
          else
            (set_pending self (current_id self) (Some m) (Some now), [])
      end
  end.

(** [add_yukacone_message] *)
Definition add_yukacone_message (data : yukacone_data) (now : Q)
    (env : flush_env) (self : t) : t * list FinalizedRecord :=
  match _convert_to_internal_format data with
  | None => (self, [])
  | Some converted =>
      if negb (dict_truthy converted) then (self, [])
      else _add_message_internal converted now env self
  end.

(** [flush_now] *)
Definition flush_now (env : flush_env) (self : t) : t * list FinalizedRecord :=
  _flush_locked env self.

(** The body of one round of [_periodic_flush_loop], after its sleep, with
    [now = time.time()].  The loop itself runs this body for as long as
    [_stop] is false at the top of a round. *)
Definition _periodic_flush_round (now : Q) (env : flush_env) (self : t)
    : t * list FinalizedRecord :=
  match current_id self, last_update_time self with
  | Some _, Some last =>
      if Qle_bool (stable_sec self) (now - last)
      then _flush_locked env self
      else (self, [])
  | _, _ => (self, [])
  end.

(** [start] *)
Definition start (self : t) : t :=
  if _thread self then self else set_thread self false true.

(** [stop] *)
Definition stop (env : flush_env) (self : t) : t * list FinalizedRecord :=
  if negb (_thread self) then (self, [])
  else _flush_locked env (set_thread self true (_thread self)).

(** ** Sequences of calls *)

(** The calls that reach one logger, in the order its lock serializes them,
    each with what the environment supplied to it. *)
Inductive call : Type :=
| Add (data : yukacone_data) (now : Q) (env : flush_env)
| Round (now : Q) (env : flush_env)
| FlushNow (env : flush_env)
| Start
| Stop (env : flush_env).

Definition step (c : call) (self : t) : t * list FinalizedRecord :=
  match c with
  | Add data now env => add_yukacone_message data now env self
  | Round now env => _periodic_flush_round now env self
  | FlushNow env => flush_now env self
  | Start => (start self, [])
  | Stop env => stop env self
  end.

Fixpoint run (cs : list call) (self : t) : t * list FinalizedRecord :=
  match cs with
  | [] => (self, [])
  | c :: rest =>
      let (self1, out1) := step c self in
      let (self2, out2) := run rest self1 in
      (self2, out1 ++ out2)
  end.

(** The lines of the log file and the arguments of the callback, read off
    the finalized records. *)
Definition log_file (out : list FinalizedRecord) : list string :=
  map line (filter written out).

Definition callback_calls (out : list FinalizedRecord) : list msg :=
  map payload (filter notified out).

End TranslationLogger.

(* ===================================================================== *)
(** * Python control flow: exceptions over mutable state                  *)
(* ===================================================================== *)

Module Py.

(** The exception classes the modelled code can meet.  All of them derive
    from [Exception]; only [RequestException] is caught by
    [except requests.exceptions.RequestException]. *)
Inductive exn : Type :=
| RequestException
| ZeroDivisionError
| IndexError
| OverflowError
| OtherException.

Inductive outcome (A : Type) : Type :=
| Return (a : A)
| Raise (e : exn).
Arguments Return {A} a.
Arguments Raise {A} e.

(** A method body: it reads and writes the world [W] and either returns or
    raises.  What it wrote before raising stays written. *)
Definition M (W A : Type) : Type := W -> outcome A * W.

Definition ret {W A} (a : A) : M W A := fun w => (Return a, w).

Definition bind {W A B} (c : M W A) (k : A -> M W B) : M W B :=
  fun w =>
    match c w with
    | (Return a, w1) => k a w1
    | (Raise e, w1) => (Raise e, w1)
    end.

Definition raise {W A} (e : exn) : M W A := fun w => (Raise e, w).

(** [try: c  except <classes>: h] *)
Definition try_except {W A} (c : M W A) (caught : exn -> bool) (h : M W A)
    : M W A :=
  fun w =>
    match c w with
    | (Return a, w1) => (Return a, w1)
    | (Raise e, w1) => if caught e then h w1 else (Raise e, w1)
    end.

Definition except_Exception (e : exn) : bool := true.

Definition except_RequestException (e : exn) : bool :=
  match e with
  | RequestException => true
  | _ => false
  end.

Definition when {W} (b : bool) (c : M W unit) : M W unit :=
  if b then c else ret tt.

End Py.

Declare Scope py_scope.
Delimit Scope py_scope with py.
Notation "x <- c ;; k" := (Py.bind c (fun x => k))
  (at level 61, c at next level, right associativity) : py_scope.
Notation "c ;; k" := (Py.bind c (fun _ => k))
  (at level 61, right associativity) : py_scope.

(* ===================================================================== *)
(** * The translation profiles of config.json                             *)
(* ===================================================================== *)

(** [profile["translation_param"]] *)
Record translation_param : Type := mkTransParam {
  slot : option Z;
  language : option string;
  engine : option string
}.

(** One element of [translation_profiles]. *)
Record Profile : Type := mkProfile {
  name : option string;
  recognition_language : option string;
  trans_param : option translation_param
}.

(** Truth value of a profile dict ([if profile:]). *)
Definition profile_truthy (p : Profile) : bool :=
  match name p, recognition_language p, trans_param p with
  | None, None, None => false
  | _, _, _ => true
  end.

(** A value in the query parameters of a request. *)
Inductive param : Type :=
| PNone
| PInt (z : Z)
| PStr (s : string).

Definition param_of_string (o : option string) : param :=
  match o with
  | Some s => PStr s
  | None => PNone
  end.

(** What the client and the key router do to the outside world. *)
Inductive event : Type :=
| HttpGet (path : string) (params : list (string * param))
| Slept (seconds : Q)
| WsConnect
| ClientStatusChange
| XsoSendStatus (profile : Profile) (is_muted : bool)
| ControllerStatusChange.

(** How one [requests.get(...)] followed by [raise_for_status()] ends:
    normally, with an exception of the requests hierarchy (transport error,
    timeout, error status), or with any other exception. *)
Inductive response : Type :=
| HttpOk
| HttpRequestError
| HttpOtherError.

(* ===================================================================== *)
(** * modules/yukacone_client.py                                          *)
(* ===================================================================== *)

Module YukaconeClient.
Import Py.
Local Open Scope py_scope.

(** The object state.  [on_status_change] records whether a callback is
    installed. *)
Record t : Type := mkClient {
  translation_profiles : list Profile;
  on_status_change : bool;
  reconnect_delay : Q;
  max_reconnect_delay : Q;
  current_profile_index : Z;
  is_muted : bool;
  last_recognition_language : option string;
  _is_running : bool;
  _reconnect_attempts : nat
}.

(** [__init__] *)
Definition __init__ (profiles : list Profile) (callback : bool)
    (delay max_delay : Q) : t :=
  {| translation_profiles := profiles;
     on_status_change := callback;
     reconnect_delay := delay;
     max_reconnect_delay := max_delay;
     current_profile_index := 0;
     is_muted := true;
     last_recognition_language := None;
     _is_running := false;
     _reconnect_attempts := 0 |}.

Definition set_current_profile_index (i : Z) (self : t) : t :=
  {| translation_profiles := translation_profiles self;
     on_status_change := on_status_change self;
     reconnect_delay := reconnect_delay self;
     max_reconnect_delay := max_reconnect_delay self;
     current_profile_index := i;
     is_muted := is_muted self;
     last_recognition_language := last_recognition_language self;
     _is_running := _is_running self;
     _reconnect_attempts := _reconnect_attempts self |}.

Definition set_is_muted (b : bool) (self : t) : t :=
  {| translation_profiles := translation_profiles self;
     on_status_change := on_status_change self;
     reconnect_delay := reconnect_delay self;
     max_reconnect_delay := max_reconnect_delay self;
     current_profile_index := current_profile_index self;
     is_muted := b;
     last_recognition_language := last_recognition_language self;
     _is_running := _is_running self;
     _reconnect_attempts := _reconnect_attempts self |}.

Definition set_last_recognition_language (l : option string) (self : t) : t :=
  {| translation_profiles := translation_profiles self;
     on_status_change := on_status_change self;
     reconnect_delay := reconnect_delay self;
     max_reconnect_delay := max_reconnect_delay self;
     current_profile_index := current_profile_index self;
     is_muted := is_muted self;
     last_recognition_language := l;
     _is_running := _is_running self;
     _reconnect_attempts := _reconnect_attempts self |}.

Definition set_is_running (b : bool) (self : t) : t :=
  {| translation_profiles := translation_profiles self;
     on_status_change := on_status_change self;
     reconnect_delay := reconnect_delay self;
     max_reconnect_delay := max_reconnect_delay self;
     current_profile_index := current_profile_index self;
     is_muted := is_muted self;
     last_recognition_language := last_recognition_language self;
     _is_running := b;
     _reconnect_attempts := _reconnect_attempts self |}.

Definition set_reconnect_attempts (n : nat) (self : t) : t :=
  {| translation_profiles := translation_profiles self;
     on_status_change := on_status_change self;
     reconnect_delay := reconnect_delay self;
     max_reconnect_delay := max_reconnect_delay self;
     current_profile_index := current_profile_index self;
     is_muted := is_muted self;
     last_recognition_language := last_recognition_language self;
     _is_running := _is_running self;
     _reconnect_attempts := n |}.

(** The world a method runs in: the object, the answers the HTTP endpoint
    will give to the successive requests, how many requests were sent so
    far, and the events so far (oldest first). *)
Record world : Type := mkWorld {
  client : t;
  network : nat -> response;
  requests_sent : nat;
  trace : list event
}.

Definition get_self : M world t := fun w => (Return (client w), w).

Definition update_self (f : t -> t) : M world unit :=
  fun w =>
    (Return tt,
     {| client := f (client w);
        network := network w;
        requests_sent := requests_sent w;
        trace := trace w |}).

Definition emit (e : event) : M world unit :=
  fun w =>
    (Return tt,
     {| client := client w;
        network := network w;
        requests_sent := requests_sent w;
        trace := trace w ++ [e] |}).

(** [requests.get(url, params=params, timeout=10)] and
    [response.raise_for_status()]. *)
Definition requests_get (path : string) (params : list (string * param))
    : M world unit :=
  fun w =>
    let w1 :=
      {| client := client w;
         network := network w;
         requests_sent := S (requests_sent w);
         trace := trace w ++ [HttpGet path params] |} in
    match network w (requests_sent w) with
    | HttpOk => (Return tt, w1)
    | HttpRequestError => (Raise RequestException, w1)
    | HttpOtherError => (Raise OtherException, w1)
    end.

(** [_call_api] *)
Definition _call_api (path : string) (params : list (string * param))
    : M world bool :=
  try_except
    (requests_get path params ;; ret true)
    except_RequestException
    (ret false).

(** [if self.on_status_change: self.on_status_change()] *)
Definition notify_status_change : M world unit :=
  self <- get_self ;;
  when (on_status_change self) (emit ClientStatusChange).

Definition option_string_eqb (a b : option string) : bool :=
  match a, b with
  | Some x, Some y => String.eqb x y
  | None, None => true
  | _, _ => false
  end.

(** [self.translation_profiles[index]] for [index >= 0]. *)
Definition profile_at (index : Z) : M world Profile :=
  self <- get_self ;;
  match nth_error (translation_profiles self) (Z.to_nat index) with
  | Some p => ret p
  | None => raise IndexError
  end.

(** [set_translation_profile] *)
Definition set_translation_profile (index : Z) : M world bool :=
  self <- get_self ;;
  if (index <? 0)%Z
     || (Z.of_nat (length (translation_profiles self)) <=? index)%Z
  then ret false
  else
    try_except
      (profile <- profile_at index ;;
       let new_recognition_lang := recognition_language profile in
       self <- get_self ;;
       when (negb (option_string_eqb new_recognition_lang
                     (last_recognition_language self)))
         (_call_api "/setRecognitionParam"
            [("language", param_of_string new_recognition_lang)] ;;
          update_self (set_last_recognition_language new_recognition_lang) ;;
          emit (Slept (1 # 2))) ;;
       let tp := get_default (trans_param profile) (mkTransParam None None None) in
       _call_api "/setTranslationParam"
         [("slot", PInt (get_default (slot tp) 1%Z));
          ("language", PStr (get_default (language tp) "en-US"));
          ("engine", PStr (get_default (engine tp) "google"))] ;;
       update_self (set_current_profile_index index) ;;
       notify_status_change ;;
       ret true)
      except_Exception
      (ret false).

(** [next_profile]; [%] by zero raises. *)
Definition next_profile : M world bool :=
  self <- get_self ;;
  let n := Z.of_nat (length (translation_profiles self)) in
  if (n =? 0)%Z then raise ZeroDivisionError
  else set_translation_profile ((current_profile_index self + 1) mod n)%Z.

(** [previous_profile] *)
Definition previous_profile : M world bool :=
  self <- get_self ;;
  let n := Z.of_nat (length (translation_profiles self)) in
  if (n =? 0)%Z then raise ZeroDivisionError
  else set_translation_profile ((current_profile_index self - 1) mod n)%Z.

(** [set_mute] *)
Definition set_mute (muted : bool) : M world bool :=
  try_except
    (let endpoint := if muted then "/mute-on" else "/mute-off" in
     _call_api endpoint [] ;;
     update_self (set_is_muted muted) ;;
     notify_status_change ;;
     ret true)
    except_Exception
    (ret false).

(** [toggle_mute] *)
Definition toggle_mute : M world bool :=
  self <- get_self ;;
  set_mute (negb (is_muted self)).

(** [get_current_profile] *)
Definition get_current_profile : M world (option Profile) :=
  self <- get_self ;;
  let i := current_profile_index self in
  if (0 <=? i)%Z && (i <? Z.of_nat (length (translation_profiles self)))%Z
  then ret (nth_error (translation_profiles self) (Z.to_nat i))
  else ret None.

(** ** The reconnect loop *)

(** [connect]: the loop thread is started unless it already runs. *)
Definition connect : M world unit :=
  self <- get_self ;;
  if _is_running self then ret tt
  else update_self (set_is_running true).

(** [disconnect], as far as the loop sees it. *)
Definition disconnect : M world unit :=
  update_self (set_is_running false).

(** How one [WebSocketApp(...).run_forever()] ends: the connection was never
    opened, the call raised, or the connection was opened ([_on_ws_open]
    ran) and later ended. *)
Inductive ws_result : Type :=
| WsFailed
| WsRaised
| WsOpened.

(** What happens around one round of the loop: how [run_forever] ends, and
    whether another thread calls [disconnect()] while it runs or while the
    loop sleeps. *)
Record attempt : Type := mkAttempt {
  result : ws_result;
  disconnect_during_run : bool;
  disconnect_during_sleep : bool
}.

(** [_on_ws_open] *)
Definition _on_ws_open : M world unit :=
  update_self (set_reconnect_attempts 0).

Definition run_forever (r : ws_result) : M world unit :=
  emit WsConnect ;;
  match r with
  | WsFailed => ret tt
  | WsRaised => raise OtherException
  | WsOpened => _on_ws_open
  end.

(** The largest exponent [n] for which the integer [2 ** n] still converts
    to a float; [float * int] raises [OverflowError] beyond it. *)
Definition max_float_exponent : nat := 1023.

(** [min(self.reconnect_delay * (2 ** self._reconnect_attempts),
         self.max_reconnect_delay)] *)
Definition backoff_delay : M world Q :=
  self <- get_self ;;
  if (max_float_exponent <? _reconnect_attempts self)%nat
  then raise OverflowError
  else ret (Qmin (reconnect_delay self
                  * inject_Z (2 ^ Z.of_nat (_reconnect_attempts self)))
                 (max_reconnect_delay self)).

(** [_ws_connect_loop], run for as many rounds as the script describes. *)
Fixpoint _ws_connect_loop (script : list attempt) : M world unit :=
  match script with
  | [] => ret tt
  | a :: rest =>
      self <- get_self ;;
      if negb (_is_running self) then ret tt
      else
        try_except (run_forever (result a)) except_Exception (ret tt) ;;
        when (disconnect_during_run a) disconnect ;;
        self <- get_self ;;
        if negb (_is_running self) then ret tt
        else
          delay <- backoff_delay ;;
          emit (Slept delay) ;;
          update_self
            (fun s => set_reconnect_attempts (S (_reconnect_attempts s)) s) ;;
          when (disconnect_during_sleep a) disconnect ;;
          _ws_connect_loop rest
  end.

End YukaconeClient.

(* ===================================================================== *)
(** * modules/media_controller.py                                         *)
(* ===================================================================== *)

Module MediaKeyController.
Import Py.
Import YukaconeClient.
Local Open Scope py_scope.

(** The keys [pynput] reports. *)
Inductive Key : Type :=
| media_play_pause
| media_next
| media_previous
| other_key.

(** The controller: [yukacone] is the client of the world, [xso] is
    outside; [on_status_change] records whether a callback is installed. *)
Record t : Type := mkController {
  on_status_change : bool
}.

(** The lines the three handlers share once their first call succeeded:
    send the status to XSOverlay, then call the callback. *)
Definition send_status_and_notify (self : t) : M world unit :=
  profile <- get_current_profile ;;
  match profile with
  | Some p =>
      when (profile_truthy p)
        (c <- get_self ;; emit (XsoSendStatus p (is_muted c)))
  | None => ret tt
  end ;;
  when (on_status_change self) (emit ControllerStatusChange).

(** [_handle_play_pause] *)
Definition _handle_play_pause (self : t) : M world unit :=
  success <- toggle_mute ;;
  when success (send_status_and_notify self).

(** [_handle_next] *)
Definition _handle_next (self : t) : M world unit :=
  success <- next_profile ;;
  when success
    (set_mute false ;;
     send_status_and_notify self).

(** [_handle_previous] *)
Definition _handle_previous (self : t) : M world unit :=
  success <- previous_profile ;;
  when success
    (set_mute false ;;
     send_status_and_notify self).

(** [_on_key_press] *)
Definition _on_key_press (self : t) (key : Key) : M world unit :=
  try_except
    match key with
    | media_play_pause => _handle_play_pause self
    | media_next => _handle_next self
    | media_previous => _handle_previous self
    | other_key => ret tt
    end
    except_Exception
    (ret tt).

End MediaKeyController.

(* ===================================================================== *)
(** * The stabilizer as the specification describes it                    *)
(* ===================================================================== *)

Module StabilizerSpec.
Import TranslationLogger.

(** The three things that happen to a stabilizer: an inbound record, a
    periodic timeout check, a forced flush. *)
Inductive stimulus : Type :=
| Ingest (data : yukacone_data) (now : Q) (env : flush_env)
| TimeoutCheck (now : Q) (env : flush_env)
| ForceFlush (env : flush_env).

Definition call_of (x : stimulus) : call :=
  match x with
  | Ingest data now env => Add data now env
  | TimeoutCheck now env => Round now env
  | ForceFlush env => FlushNow env
  end.

(** The id under which a record is forwarded to the stabilizer: records
    without an id or with fewer than two entries are discarded. *)
Definition forwarded_id (data : yukacone_data) : option string :=
  match MessageID data with
  | Some i =>
      if (2 <=? length (text_list_of data))%nat then Some i else None
  | None => None
  end.

(** The runs that have ended once the stimuli [xs] are over.  [open] is the
    run in progress, if any: its id and the time of its latest record.  A
    run ends with a record of another id, with a timeout check that finds it
    idle for the stable window, or with a forced flush. *)
Fixpoint ended_runs (stable : Q) (open : option (string * Q))
    (xs : list stimulus) : nat :=
  match xs with
  | [] => 0
  | Ingest data now _ :: rest =>
      match forwarded_id data, open with
      | None, _ => ended_runs stable open rest
      | Some i, None => ended_runs stable (Some (i, now)) rest
      | Some i, Some (j, _) =>
          if String.eqb i j
          then ended_runs stable (Some (i, now)) rest
          else S (ended_runs stable (Some (i, now)) rest)
      end
  | TimeoutCheck now _ :: rest =>
      match open with
      | Some (_, last) =>
          if Qle_bool stable (now - last)
          then S (ended_runs stable None rest)
          else ended_runs stable open rest
      | None => ended_runs stable None rest
      end
  | ForceFlush _ :: rest =>
      match open with
      | Some _ => S (ended_runs stable None rest)
      | None => ended_runs stable None rest
      end
  end.

(** The maximal runs of equal consecutive ids in a list of ids. *)
Fixpoint count_runs (ids : list string) : nat :=
  match ids with
  | [] => 0
  | i :: rest =>
      match rest with
      | [] => 1
      | j :: _ => if String.eqb i j then count_runs rest else S (count_runs rest)
      end
  end.

(** No pending message: the three fields are [None]. *)
Definition no_pending (s : t) : Prop :=
  current_id s = None /\ last_data s = None /\ last_update_time s = None.

(** One pending message: the three fields are set. *)
Definition one_pending (s : t) : Prop :=
  exists i m u,
    current_id s = Some i /\ last_data s = Some m /\ last_update_time s = Some u.

Definition all_or_nothing (s : t) : Prop := no_pending s \/ one_pending s.

(** The message with id [i] and payload [m], last updated at [u], is
    pending in [s]. *)
Definition pending (s : t) (i : string) (m : msg) (u : Q) : Prop :=
  current_id s = Some i /\ last_data s = Some m /\ last_update_time s = Some u
  /\ MsgID m = Some i.

(** The state [s] is where the specification has [open]. *)
Definition tracks (s : t) (open : option (string * Q)) : Prop :=
  match open with
  | None => no_pending s
  | Some (i, u) => exists m, pending s i m u
  end.

(** Appending to the log file succeeds when this stimulus flushes. *)
Definition write_succeeds (x : stimulus) : Prop :=
  match x with
  | Ingest _ _ env | TimeoutCheck _ env | ForceFlush env => write_ok env = true
  end.

End StabilizerSpec.

(* ===================================================================== *)
(** * The session layer as the specification describes it                 *)
(* ===================================================================== *)

Module SessionSpec.
Import Py YukaconeClient MediaKeyController.

(** The session state of the specification:
    [(activeProfileIndex, isMuted, lastRecognitionLanguage)]. *)
Definition session_state (c : YukaconeClient.t) : Z * bool * option string :=
  (current_profile_index c, is_muted c, last_recognition_language c).

(** [0 <= activeProfileIndex < len(profiles)] *)
Definition index_in_range (c : YukaconeClient.t) : Prop :=
  (0 <= current_profile_index c < Z.of_nat (length (translation_profiles c)))%Z.

(** Every control call succeeds. *)
Definition all_ok (net : nat -> response) : Prop := forall n, net n = HttpOk.

(** No control call ends with an exception outside the requests hierarchy:
    each one succeeds or fails with a [RequestException]. *)
Definition no_other_error (net : nat -> response) : Prop :=
  forall n, net n <> HttpOtherError.

(** The world after running [c] and dropping its result. *)
Definition exec {A} (c : M world A) (w : world) : world := snd (c w).

(** [c] run [n] times in a row. *)
Fixpoint exec_times {A} (n : nat) (c : M world A) (w : world) : world :=
  match n with
  | O => w
  | S k => exec_times k c (exec c w)
  end.

(** The operations of the session controller. *)
Inductive operation : Type :=
| SetProfile (index : Z)
| NextProfile
| PreviousProfile
| SetMute (muted : bool)
| ToggleMute.

Definition perform (o : operation) : M world bool :=
  match o with
  | SetProfile index => set_translation_profile index
  | NextProfile => next_profile
  | PreviousProfile => previous_profile
  | SetMute muted => set_mute muted
  | ToggleMute => toggle_mute
  end.

(** The call a key starts with; other keys start none. *)
Definition first_call (key : Key) : M world bool :=
  match key with
  | media_play_pause => toggle_mute
  | media_next => next_profile
  | media_previous => previous_profile
  | other_key => ret false
  end.

(** The call that follows a successful first call, before the status is
    sent: [set_mute(False)] for next and previous. *)
Definition second_call (key : Key) : M world bool :=
  match key with
  | media_next | media_previous => set_mute false
  | media_play_pause | other_key => ret true
  end.

Definition is_controller_status_change (e : event) : bool :=
  match e with
  | ControllerStatusChange => true
  | _ => false
  end.

Definition is_status_change (e : event) : bool :=
  match e with
  | ControllerStatusChange | ClientStatusChange => true
  | _ => false
  end.

(** How often the controller's own callback ran in a trace. *)
Definition controller_notifications (tr : list event) : nat :=
  length (filter is_controller_status_change tr).

(** How often a status-change callback ran in a trace, the client's and the
    controller's together (main.py installs the same function as both). *)
Definition status_notifications (tr : list event) : nat :=
  length (filter is_status_change tr).

(** The delays slept in a trace, oldest first. *)
Fixpoint delays (tr : list event) : list Q :=
  match tr with
  | [] => []
  | Slept d :: rest => d :: delays rest
  | _ :: rest => delays rest
  end.

(** [min(base * 2^n, max)] *)
Definition capped_backoff (base max_delay : Q) (n : nat) : Q :=
  Qmin (base * inject_Z (2 ^ Z.of_nat n)) max_delay.

(** Events of the client itself: anything but the controller's callback. *)
Definition client_event (e : event) : Prop :=
  is_controller_status_change e = false.

(** What every method of the client leaves alone: the endpoint's answers,
    the configuration of the object, and the events already in the trace. *)
Record frame (w w' : world) : Prop := mkFrame {
  frame_network : network w' = network w;
  frame_profiles :
    translation_profiles (client w') = translation_profiles (client w);
  frame_callback :
    YukaconeClient.on_status_change (client w')
    = YukaconeClient.on_status_change (client w);
  frame_delay : reconnect_delay (client w') = reconnect_delay (client w);
  frame_max_delay :
    max_reconnect_delay (client w') = max_reconnect_delay (client w);
  frame_trace : exists evs, trace w' = trace w ++ evs /\ Forall client_event evs
}.

(** The events of [k] failed rounds of the reconnect loop that start with
    the attempts counter at [a]. *)
Fixpoint failed_rounds (base max_delay : Q) (a k : nat) : list event :=
  match k with
  | O => []
  | S k' =>
      WsConnect :: Slept (capped_backoff base max_delay a)
        :: failed_rounds base max_delay (S a) k'
  end.

(** A round in which no connection is opened and nobody disconnects. *)
Definition is_failure (a : attempt) : Prop :=
  result a <> WsOpened
  /\ disconnect_during_run a = false
  /\ disconnect_during_sleep a = false.

(** The world after one failed round of the reconnect loop. *)
Definition after_failed_round (w : world) : world :=
  {| client :=
       set_reconnect_attempts (S (_reconnect_attempts (client w))) (client w);
     network := network w;
     requests_sent := requests_sent w;
     trace :=
       trace w
       ++ [WsConnect;
           Slept (capped_backoff (reconnect_delay (client w))
                    (max_reconnect_delay (client w))
                    (_reconnect_attempts (client w)))] |}.


End SessionSpec.

(* ===================================================================== *)
(** * Concrete inputs                                                     *)
(* ===================================================================== *)

Module Samples.
Import TranslationLogger.

Definition env0 : flush_env := mkFlushEnv "20240101-12:00:00.000" true.

Definition hello (id : string) (text : string) : yukacone_data :=
  mkData (Some id)
    (Some [mkEntry (Some "ja") (Some "konnichiwa");
           mkEntry (Some "en") (Some text)]).

Definition hello_msg (id : string) (text : string) : msg :=
  mkMsg (Some id) (Some "ja") (Some "konnichiwa") (Some "en") (Some text).

Definition one_entry : yukacone_data :=
  mkData (Some "msg001") (Some [mkEntry (Some "ja") (Some "konnichiwa")]).

Definition fresh_logger : TranslationLogger.t :=
  TranslationLogger.__init__ 10 1 false.

Definition ja_en : Profile :=
  mkProfile (Some "JA-EN") (Some "ja")
    (Some (mkTransParam (Some 1%Z) (Some "en-US") (Some "google"))).

Definition ja_zh : Profile :=
  mkProfile (Some "JA-ZH") (Some "ja")
    (Some (mkTransParam (Some 1%Z) (Some "zh-CN") (Some "google"))).

Definition en_ja : Profile :=
  mkProfile (Some "EN-JA") (Some "en")
    (Some (mkTransParam (Some 1%Z) (Some "ja-JP") (Some "google"))).

(** A client as main.py constructs it, in a world whose HTTP endpoint
    answers as [net] says. *)
Definition fresh_world (profiles : list Profile) (net : nat -> response)
    : YukaconeClient.world :=
  YukaconeClient.mkWorld
    (YukaconeClient.__init__ profiles true 3 60) net 0 [].

(** The same after [connect()]: the reconnect loop may run. *)
Definition connected_world (profiles : list Profile) (net : nat -> response)
    : YukaconeClient.world :=
  snd (YukaconeClient.connect (fresh_world profiles net)).

Definition controller : MediaKeyController.t :=
  MediaKeyController.mkController true.

Definition failed_attempt : YukaconeClient.attempt :=
  YukaconeClient.mkAttempt YukaconeClient.WsFailed false false.

Definition opened_attempt : YukaconeClient.attempt :=
  YukaconeClient.mkAttempt YukaconeClient.WsOpened false false.

End Samples.

(* ===================================================================== *)
(** * Further notions about the stabilizer                                *)
(* ===================================================================== *)

Module StabilizerNotions.
Import TranslationLogger StabilizerSpec.

(** [l1] is [l2] with some elements left out, the order kept. *)
Inductive subsequence {A : Type} : list A -> list A -> Prop :=
| sub_nil : subsequence [] []
| sub_skip (x : A) (l1 l2 : list A) :
    subsequence l1 l2 -> subsequence l1 (x :: l2)
| sub_take (x : A) (l1 l2 : list A) :
    subsequence l1 l2 -> subsequence (x :: l1) (x :: l2).

(** The payloads of the records among [cs] that are forwarded to the
    stabilizer, in the order of arrival. *)
Fixpoint forwarded_payloads (cs : list call) : list msg :=
  match cs with
  | [] => []
  | Add data _ _ :: rest =>
      match _convert_to_internal_format data with
      | Some m => m :: forwarded_payloads rest
      | None => forwarded_payloads rest
      end
  | _ :: rest => forwarded_payloads rest
  end.

(** The pending state is well formed: nothing is pending, or one message is
    and its payload carries the pending id. *)
Definition coherent (s : t) : Prop :=
  no_pending s \/ exists i m u, pending s i m u.

(** The three fields of the pending state. *)
Definition pending_fields (s : t) : option string * option msg * option Q :=
  (current_id s, last_data s, last_update_time s).

(** What one call does to a coherent logger: nothing to the pending state
    ([Quiet]); it finalizes the pending message and leaves none
    ([Flushes]); it makes the record it carries the pending message, over
    nothing or over a message of the same id, and finalizes nothing
    ([Accepts]); or it finalizes the pending message of another id and makes
    its record the pending one ([Switches]). *)
Inductive effect (c : call) (s s1 : t) (out : list FinalizedRecord) : Prop :=
| Quiet :
    out = [] -> pending_fields s1 = pending_fields s -> effect c s s1 out
| Flushes (i : string) (m : msg) (u : Q) :
    pending s i m u -> map payload out = [m] -> no_pending s1 ->
    effect c s s1 out
| Accepts (data : yukacone_data) (now : Q) (env : flush_env) (i : string)
    (m : msg) :
    c = Add data now env ->
    _convert_to_internal_format data = Some m ->
    MessageID data = Some i ->
    (no_pending s \/ exists m0 u, pending s i m0 u) ->
    out = [] -> pending s1 i m now ->
    effect c s s1 out
| Switches (data : yukacone_data) (now : Q) (env : flush_env) (i j : string)
    (m m0 : msg) (u : Q) :
    c = Add data now env ->
    _convert_to_internal_format data = Some m ->
    MessageID data = Some i ->
    i <> j -> pending s j m0 u ->
    map payload out = [m0] -> pending s1 i m now ->
    effect c s s1 out.

(** The calls other than [start()]. *)
Definition not_start (c : call) : Prop :=
  match c with
  | Start => False
  | _ => True
  end.

End StabilizerNotions.

(* ===================================================================== *)
(** * modules/yukacone_client.py: the information getters                 *)
(* ===================================================================== *)

Module YukaconeClientInfo.
Import Py YukaconeClient.
Local Open Scope py_scope.

(** [get_profile_name] *)
Definition get_profile_name : M world string :=
  profile <- get_current_profile ;;
  match profile with
  | Some p =>
      if profile_truthy p then ret (get_default (name p) "Unknown")
      else ret "Unknown"
  | None => ret "Unknown"
  end.

(** [get_translation_engine] *)
Definition get_translation_engine : M world string :=
  profile <- get_current_profile ;;
  match profile with
  | Some p =>
      if profile_truthy p
      then ret (get_default
                  (engine (get_default (trans_param p)
                             (mkTransParam None None None)))
                  "Unknown")
      else ret "Unknown"
  | None => ret "Unknown"
  end.

End YukaconeClientInfo.

(* ===================================================================== *)
(** * modules/xso_client.py                                               *)
(* ===================================================================== *)

Module XSOClient.
Import Py.
Local Open Scope py_scope.

(** The object state.  [_ws] records whether [self._ws] is set.  The
    endpoint is left out: it only names the server. *)
Record t : Type := mkXso {
  app_name : string;
  reconnect_delay : Q;
  max_reconnect_delay : Q;
  _ws : bool;
  _is_running : bool;
  _reconnect_attempts : nat;
  _is_connected : bool
}.

(** [__init__] *)
Definition __init__ (app : string) (delay max_delay : Q) : t :=
  {| app_name := app;
     reconnect_delay := delay;
     max_reconnect_delay := max_delay;
     _ws := false;
     _is_running := false;
     _reconnect_attempts := 0;
     _is_connected := false |}.

(** [is_connected] *)
Definition is_connected (self : t) : bool := _is_connected self.

(** The dict that becomes [jsonData] for [UpdateMediaPlayerInformation]. *)
Record media_player_information : Type := mkMediaInfo {
  artist : string;
  title : string;
  album : string;
  sourceApp : string
}.

(** The dict that becomes [jsonData] for [SendNotification]. *)
Record notification : Type := mkNotification {
  notification_type : Z;
  notification_title : string;
  content : string;
  opacity : Q;
  volume : Q;
  timeout : Q
}.

Inductive json_data : Type :=
| MediaPlayerInformation (info : media_player_information)
| Notification (n : notification).

(** The dict handed to [_send_data].  The text [json.dumps] makes of it is
    not modelled: a message on the wire is the dict it encodes. *)
Record message : Type := mkMessage {
  sender : string;
  target : string;
  command : string;
  jsonData : json_data
}.

(** Why [_send_data] raises: its own [RuntimeError], or the socket. *)
Inductive send_error : Type :=
| RuntimeError
| SocketError.

(** [_send_data]; [send_ok] tells whether [self._ws.send] returns. *)
Definition _send_data (data : message) (send_ok : bool) (self : t)
    : send_error + list message :=
  if negb (_ws self) || negb (_is_connected self) then inl RuntimeError
  else if send_ok then inr [data] else inl SocketError.

(** The default of [source_app] in [send_status]. *)
Definition default_source_app : string := "ゆかコネ".

(** [send_status]: the result and the messages put on the wire. *)
Definition send_status (profile : Profile) (is_muted : bool)
    (source_app : string) (send_ok : bool) (self : t)
    : bool * list message :=
  if negb (_is_connected self) then (false, [])
  else
    let profile_name := get_default (name profile) "Unknown" in
    let engine_name :=
      get_default
        (engine (get_default (trans_param profile)
                   (mkTransParam None None None)))
        "Unknown" in
    let data :=
      {| sender := app_name self;
         target := "xsoverlay";
         command := "UpdateMediaPlayerInformation";
         jsonData :=
           MediaPlayerInformation
             {| artist := (profile_name ++ " (" ++ engine_name ++ ")")%string;
                title := if is_muted then "Mute" else "Online";
                album := app_name self;
                sourceApp := source_app |} |} in
    match _send_data data send_ok self with
    | inr out => (true, out)
    | inl _ => (false, [])
    end.

(** [x or default] on an optional string. *)
Definition string_or (x : option string) (default : string) : string :=
  match x with
  | Some "" | None => default
  | Some v => v
  end.

(** [update_status_simple] *)
Definition update_status_simple (title_ artist_ : string)
    (album_ : option string) (send_ok : bool) (self : t)
    : bool * list message :=
  if negb (_is_connected self) then (false, [])
  else
    let data :=
      {| sender := app_name self;
         target := "xsoverlay";
         command := "UpdateMediaPlayerInformation";
         jsonData :=
           MediaPlayerInformation
             {| artist := artist_;
                title := title_;
                album := string_or album_ (app_name self);
                sourceApp := app_name self |} |} in
    match _send_data data send_ok self with
    | inr out => (true, out)
    | inl _ => (false, [])
    end.

(** [send_notification] *)
Definition send_notification (content_ : string) (title_ : option string)
    (type_ : Z) (opacity_ volume_ duration : Q) (send_ok : bool) (self : t)
    : bool * list message :=
  if negb (_is_connected self) then (false, [])
  else
    let data :=
      {| sender := app_name self;
         target := "xsoverlay";
         command := "SendNotification";
         jsonData :=
           Notification
             {| notification_type := type_;
                notification_title := string_or title_ "ゆかコネ翻訳";
                content := content_;
                opacity := opacity_;
                volume := volume_;
                timeout := duration |} |} in
    match _send_data data send_ok self with
    | inr out => (true, out)
    | inl _ => (false, [])
    end.

(** [send_translation_notification] *)
Definition send_translation_notification (translated_text : string)
    (opacity_ : Q) (send_ok : bool) (self : t) : bool * list message :=
  send_notification translated_text (Some "翻訳") 1 opacity_ 0 3 send_ok self.

(** ** The reconnect loop *)

Definition set_ws (b : bool) (self : t) : t :=
  {| app_name := app_name self;
     reconnect_delay := reconnect_delay self;
     max_reconnect_delay := max_reconnect_delay self;
     _ws := b;
     _is_running := _is_running self;
     _reconnect_attempts := _reconnect_attempts self;
     _is_connected := _is_connected self |}.

Definition set_is_running (b : bool) (self : t) : t :=
  {| app_name := app_name self;
     reconnect_delay := reconnect_delay self;
     max_reconnect_delay := max_reconnect_delay self;
     _ws := _ws self;
     _is_running := b;
     _reconnect_attempts := _reconnect_attempts self;
     _is_connected := _is_connected self |}.

Definition set_reconnect_attempts (n : nat) (self : t) : t :=
  {| app_name := app_name self;
     reconnect_delay := reconnect_delay self;
     max_reconnect_delay := max_reconnect_delay self;
     _ws := _ws self;
     _is_running := _is_running self;
     _reconnect_attempts := n;
     _is_connected := _is_connected self |}.

Definition set_is_connected (b : bool) (self : t) : t :=
  {| app_name := app_name self;
     reconnect_delay := reconnect_delay self;
     max_reconnect_delay := max_reconnect_delay self;
     _ws := _ws self;
     _is_running := _is_running self;
     _reconnect_attempts := _reconnect_attempts self;
     _is_connected := b |}.

(** The callbacks [WebSocketApp] makes while [run_forever] runs. *)
Inductive callback : Type :=
| OnOpen
| OnError
| OnClose.

(** [_on_ws_open], [_on_ws_error], [_on_ws_close] *)
Definition on_callback (cb : callback) (self : t) : t :=
  match cb with
  | OnOpen => set_reconnect_attempts 0 (set_is_connected true self)
  | OnError => set_is_connected false self
  | OnClose => set_is_connected false self
  end.

Fixpoint on_callbacks (cbs : list callback) (self : t) : t :=
  match cbs with
  | [] => self
  | cb :: rest => on_callbacks rest (on_callback cb self)
  end.

(** What happens around one round of the loop: the callbacks made while
    [run_forever] runs, whether it raises in the end, and whether another
    thread calls [disconnect()] meanwhile or during the sleep. *)
Record attempt : Type := mkAttempt {
  callbacks : list callback;
  raised : bool;
  disconnect_during_run : bool;
  disconnect_during_sleep : bool
}.

(** The world of the loop: the object and the events so far. *)
Record world : Type := mkWorld {
  client : t;
  trace : list event
}.

Definition get_self : M world t := fun w => (Return (client w), w).

Definition update_self (f : t -> t) : M world unit :=
  fun w => (Return tt, {| client := f (client w); trace := trace w |}).

Definition emit (e : event) : M world unit :=
  fun w => (Return tt, {| client := client w; trace := trace w ++ [e] |}).

(** [connect] and [disconnect], as far as the loop sees them. *)
Definition connect : M world unit :=
  self <- get_self ;;
  if _is_running self then ret tt
  else update_self (set_is_running true).

Definition disconnect : M world unit :=
  update_self (set_is_running false).

(** [self._ws = WebSocketApp(...)] and [self._ws.run_forever()] *)
Definition run_forever (a : attempt) : M world unit :=
  update_self (set_ws true) ;;
  emit WsConnect ;;
  update_self (on_callbacks (callbacks a)) ;;
  if raised a then raise OtherException else ret tt.

(** [min(self.reconnect_delay * (2 ** self._reconnect_attempts),
         self.max_reconnect_delay)] *)
Definition backoff_delay : M world Q :=
  self <- get_self ;;
  if (YukaconeClient.max_float_exponent <? _reconnect_attempts self)%nat
  then raise OverflowError
  else ret (Qmin (reconnect_delay self
                  * inject_Z (2 ^ Z.of_nat (_reconnect_attempts self)))
                 (max_reconnect_delay self)).

(** [_ws_connect_loop], run for as many rounds as the script describes. *)
Fixpoint _ws_connect_loop (script : list attempt) : M world unit :=
  match script with
  | [] => ret tt
  | a :: rest =>
      self <- get_self ;;
      if negb (_is_running self) then ret tt
      else
        try_except (run_forever a) except_Exception (ret tt) ;;
        update_self (set_is_connected false) ;;
        when (disconnect_during_run a) disconnect ;;
        self <- get_self ;;
        if negb (_is_running self) then ret tt
        else
          delay <- backoff_delay ;;
          emit (Slept delay) ;;
          update_self
            (fun s => set_reconnect_attempts (S (_reconnect_attempts s)) s) ;;
          when (disconnect_during_sleep a) disconnect ;;
          _ws_connect_loop rest
  end.

End XSOClient.

(* ===================================================================== *)
(** * main.py                                                             *)
(* ===================================================================== *)

Module Bridge.
Import Py YukaconeClient.
Local Open Scope py_scope.

(** [YncneoXSOBridge.initialize].  The profiles of the configuration are
    the list the client was constructed with; the status sent to XSOverlay
    is an event of the world. *)
Definition initialize : M world unit :=
  set_translation_profile 0 ;;
  emit (Slept 1) ;;
  set_mute true ;;
  self <- get_self ;;
  match nth_error (translation_profiles self) 0 with
  | Some p => emit (XsoSendStatus p true)
  | None => raise IndexError
  end.

End Bridge.

(* ===================================================================== *)
(** * Further notions about the session layer                             *)
(* ===================================================================== *)

Module SessionNotions.
Import Py YukaconeClient MediaKeyController SessionSpec.

(** What can be done to the client from outside: an operation of the
    session controller, or a key press through a key router. *)
Inductive action : Type :=
| Operation (o : operation)
| KeyPress (self : MediaKeyController.t) (key : Key).

Definition act (a : action) (w : world) : world :=
  match a with
  | Operation o => exec (perform o) w
  | KeyPress self key => exec (_on_key_press self key) w
  end.

Fixpoint act_all (acts : list action) (w : world) : world :=
  match acts with
  | [] => w
  | a :: rest => act_all rest (act a w)
  end.

(** The query of the translation-parameter call for a profile. *)
Definition translation_query (p : Profile) : list (string * param) :=
  let tp := get_default (trans_param p) (mkTransParam None None None) in
  [("slot", PInt (get_default (slot tp) 1%Z));
   ("language", PStr (get_default (language tp) "en-US"));
   ("engine", PStr (get_default (engine tp) "google"))].

(** The events of the client's own status-change callback. *)
Definition client_notification (c : YukaconeClient.t) : list event :=
  if YukaconeClient.on_status_change c then [ClientStatusChange] else [].

(** The events of one [set_translation_profile] to the profile [p] that
    runs to its end, on a client whose last pushed recognition language is
    [last]. *)
Definition profile_change_events (c : YukaconeClient.t) (p : Profile)
    : list event :=
  (if option_string_eqb (recognition_language p) (last_recognition_language c)
   then []
   else [HttpGet "/setRecognitionParam"
           [("language", param_of_string (recognition_language p))];
         Slept (1 # 2)])
  ++ [HttpGet "/setTranslationParam" (translation_query p)]
  ++ client_notification c.

(** The operations that change the profile, and those that change the mute
    flag. *)
Definition is_profile_operation (o : operation) : bool :=
  match o with
  | SetProfile _ | NextProfile | PreviousProfile => true
  | SetMute _ | ToggleMute => false
  end.


(** The profile [get_current_profile] answers with, read off the client. *)
Definition current_profile_of (c : YukaconeClient.t) : option Profile :=
  if ((0 <=? current_profile_index c)
      && (current_profile_index c
          <? Z.of_nat (length (translation_profiles c))))%Z
  then nth_error (translation_profiles c) (Z.to_nat (current_profile_index c))
  else None.

(** The events with which a key handler ends once its calls succeeded: the
    status sent to XSOverlay (for a profile that is a non-empty dict), then
    the controller's callback (when one is installed). *)
Definition status_events (self : MediaKeyController.t) (p : option Profile)
    (muted : bool) : list event :=
  match p with
  | Some p => if profile_truthy p then [XsoSendStatus p muted] else []
  | None => []
  end
  ++ (if MediaKeyController.on_status_change self
      then [ControllerStatusChange] else []).

(** By how much a key moves the profile index. *)
Definition index_step (key : Key) : Z :=
  match key with
  | media_next => 1
  | media_previous => -1
  | _ => 0
  end.

End SessionNotions.

(* ===================================================================== *)
(** * Further notions about the XSOverlay client                          *)
(* ===================================================================== *)

Module XSONotions.
Import Py XSOClient.

(** The four public senders, as one family. *)
Inductive sender_call : Type :=
| SendStatus (profile : Profile) (is_muted : bool) (source_app : string)
| UpdateStatusSimple (title_ artist_ : string) (album_ : option string)
| SendNotification (content_ : string) (title_ : option string) (type_ : Z)
    (opacity_ volume_ duration : Q)
| SendTranslationNotification (translated_text : string) (opacity_ : Q).

Definition send (c : sender_call) (send_ok : bool) (self : t)
    : bool * list message :=
  match c with
  | SendStatus profile is_muted source_app =>
      send_status profile is_muted source_app send_ok self
  | UpdateStatusSimple title_ artist_ album_ =>
      update_status_simple title_ artist_ album_ send_ok self
  | SendNotification content_ title_ type_ opacity_ volume_ duration =>
      send_notification content_ title_ type_ opacity_ volume_ duration
        send_ok self
  | SendTranslationNotification translated_text opacity_ =>
      send_translation_notification translated_text opacity_ send_ok self
  end.

End XSONotions.

(* ===================================================================== *)
(** * Properties of the stabilizer                                        *)
(* ===================================================================== *)

Module StabilizerProofs.
Import TranslationLogger StabilizerSpec.

(** ** Input adaptation *)

Lemma convert_msg_id (data : yukacone_data) (m : msg) :
  _convert_to_internal_format data = Some m ->
  MsgID m = MessageID data /\ forwarded_id data = MsgID m
  /\ exists i, MsgID m = Some i.
Proof.
  unfold _convert_to_internal_format, forwarded_id.
  destruct (MessageID data) as [i|]; [|discriminate].
  destruct (text_list_of data) as [|e0 [|e1 l]]; try discriminate.
  intros H; injection H as <-; cbn. eauto.
Qed.

Lemma convert_none (data : yukacone_data) :
  _convert_to_internal_format data = None <-> forwarded_id data = None.
Proof.
  unfold _convert_to_internal_format, forwarded_id.
  destruct (MessageID data) as [i|]; [|tauto].
  destruct (text_list_of data) as [|e0 [|e1 l]]; cbn; split; congruence.
Qed.

Lemma msg_id_truthy (m : msg) (i : string) :
  MsgID m = Some i -> dict_truthy m = true.
Proof. unfold dict_truthy. intros ->. reflexivity. Qed.

(** A record that is forwarded reaches [_add_message_internal] converted. *)
Lemma add_forwarded (data : yukacone_data) (m : msg) now env s :
  _convert_to_internal_format data = Some m ->
  add_yukacone_message data now env s = _add_message_internal m now env s.
Proof.
  intros H. unfold add_yukacone_message. rewrite H.
  destruct (convert_msg_id _ _ H) as (_ & _ & i & Hi).
  rewrite (msg_id_truthy _ _ Hi). reflexivity.
Qed.

(** ** The flush *)

Lemma flush_pending s i m u env :
  pending s i m u ->
  _flush_locked env s =
    (set_pending s None None None,
     [ {| payload := m;
          line := format_line (timestamp env) m;
          written := write_ok env;
          notified := on_message_logged s |} ]).
Proof.
  intros (_ & Hd & _ & Hi). unfold _flush_locked.
  rewrite Hd, (msg_id_truthy _ _ Hi). reflexivity.
Qed.

Lemma flush_no_pending s env :
  no_pending s -> _flush_locked env s = (s, []).
Proof. intros (_ & Hd & _). unfold _flush_locked. rewrite Hd. reflexivity. Qed.

Lemma set_pending_none s : no_pending (set_pending s None None None).
Proof. repeat split. Qed.

Lemma set_pending_some s i m u :
  MsgID m = Some i -> pending (set_pending s (Some i) (Some m) (Some u)) i m u.
Proof. intros H. repeat split; assumption. Qed.

(** ** What one ingest does, case by case *)

Lemma ingest_first s m i now env :
  MsgID m = Some i -> no_pending s ->
  _add_message_internal m now env s =
    (set_pending s (Some i) (Some m) (Some now), []).
Proof.
  intros Hi (Hc & _). unfold _add_message_internal. rewrite Hi, Hc. reflexivity.
Qed.

Lemma ingest_same_id s m i m0 u now env :
  MsgID m = Some i -> pending s i m0 u ->
  _add_message_internal m now env s =
    (set_pending s (Some i) (Some m) (Some now), []).
Proof.
  intros Hi (Hc & _). unfold _add_message_internal.
  rewrite Hi, Hc, String.eqb_refl. reflexivity.
Qed.

Lemma ingest_other_id s m i j m0 u now env :
  MsgID m = Some i -> pending s j m0 u -> i <> j ->
  _add_message_internal m now env s =
    (set_pending s (Some i) (Some m) (Some now),
     [ {| payload := m0;
          line := format_line (timestamp env) m0;
          written := write_ok env;
          notified := on_message_logged s |} ]).
Proof.
  intros Hi Hp Hne. unfold _add_message_internal.
  rewrite Hi. destruct Hp as (Hc & Hrest). rewrite Hc.
  apply String.eqb_neq in Hne. rewrite Hne. cbn [negb].
  rewrite (flush_pending s j m0 u env) by (split; assumption).
  reflexivity.
Qed.

(** ** The invariant *)

Lemma all_or_nothing_flush env s :
  all_or_nothing s -> all_or_nothing (fst (_flush_locked env s)).
Proof.
  intros H. unfold _flush_locked.
  destruct (last_data s) as [d|]; [|exact H].
  destruct (dict_truthy d); cbn; [|exact H].
  left. apply set_pending_none.
Qed.

Lemma all_or_nothing_add_internal m now env s :
  all_or_nothing s ->
  all_or_nothing (fst (_add_message_internal m now env s)).
Proof.
  intros H. unfold _add_message_internal.
  destruct (MsgID m) as [i|]; [|exact H].
  destruct (current_id s) as [cur|]; cbn.
  - destruct (String.eqb i cur); cbn.
    + right. exists cur, m, now. repeat split.
    + destruct (_flush_locked env s) as [s1 out]; cbn.
      right. exists i, m, now. repeat split.
  - right. exists i, m, now. repeat split.
Qed.

Lemma all_or_nothing_step c s :
  all_or_nothing s -> all_or_nothing (fst (step c s)).
Proof.
  intros H. destruct c as [data now env|now env|env| |env]; cbn.
  - unfold add_yukacone_message.
    destruct (_convert_to_internal_format data) as [m|]; [|exact H].
    destruct (dict_truthy m); cbn; [|exact H].
    apply all_or_nothing_add_internal, H.
  - unfold _periodic_flush_round.
    destruct (current_id s); [|exact H].
    destruct (last_update_time s); [|exact H].
    destruct (Qle_bool _ _); [|exact H].
    apply all_or_nothing_flush, H.
  - apply all_or_nothing_flush, H.
  - unfold start. destruct (_thread s); exact H.
  - unfold stop. destruct (_thread s); cbn; [|exact H].
    apply all_or_nothing_flush. exact H.
Qed.

Lemma all_or_nothing_run cs s :
  all_or_nothing s -> all_or_nothing (fst (run cs s)).
Proof.
  revert s. induction cs as [|c cs IH]; intros s H; cbn; [exact H|].
  pose proof (all_or_nothing_step c s H) as H1.
  destruct (step c s) as [s1 o1]. specialize (IH s1 H1).
  destruct (run cs s1) as [s2 o2]. exact IH.
Qed.

(** ** Counting the finalized records *)

Lemma run_cons c cs s :
  run (c :: cs) s =
    (fst (run cs (fst (step c s))),
     snd (step c s) ++ snd (run cs (fst (step c s)))).
Proof.
  cbn. destruct (step c s) as [s1 o1]; cbn.
  destruct (run cs s1) as [s2 o2]; reflexivity.
Qed.

Lemma round_pending s i m u now env :
  pending s i m u ->
  _periodic_flush_round now env s =
    if Qle_bool (stable_sec s) (now - u) then _flush_locked env s else (s, []).
Proof.
  intros (Hc & _ & Hu & _). unfold _periodic_flush_round.
  rewrite Hc, Hu. reflexivity.
Qed.

Lemma round_no_pending s now env :
  no_pending s -> _periodic_flush_round now env s = (s, []).
Proof.
  intros (Hc & _). unfold _periodic_flush_round. rewrite Hc. reflexivity.
Qed.

(** From any state that is where the specification has [open], the records
    finalized by a sequence of stimuli are as many as the runs it ends. *)
Lemma finalized_count_from (xs : list stimulus) :
  forall (s : t) (open : option (string * Q)),
    tracks s open ->
    length (snd (run (map call_of xs) s)) = ended_runs (stable_sec s) open xs.
Proof.
  induction xs as [|x xs IH]; intros s open Ht; [reflexivity|].
  cbn [map]. rewrite run_cons. cbn [snd]. rewrite length_app.
  destruct x as [data now env|now env|env]; cbn [call_of step ended_runs].
  - destruct (_convert_to_internal_format data) as [m|] eqn:Hconv.
    + rewrite (add_forwarded _ _ now env s Hconv).
      destruct (convert_msg_id _ _ Hconv) as (_ & -> & i & Hi). rewrite Hi.
      destruct open as [[j u]|]; cbn [tracks] in Ht.
      * destruct Ht as [m0 Hp].
        destruct (String.eqb_spec i j) as [->|Hne].
        -- rewrite (ingest_same_id s m j m0 u now env Hi Hp). cbn [fst snd length].
           rewrite (IH _ (Some (j, now))); [reflexivity|].
           exists m. now apply set_pending_some.
        -- rewrite (ingest_other_id s m i j m0 u now env Hi Hp Hne).
           cbn [fst snd length].
           rewrite (IH _ (Some (i, now))); [reflexivity|].
           exists m. now apply set_pending_some.
      * rewrite (ingest_first s m i now env Hi Ht). cbn [fst snd length].
        rewrite (IH _ (Some (i, now))); [reflexivity|].
        exists m. now apply set_pending_some.
    + unfold add_yukacone_message. rewrite Hconv.
      apply convert_none in Hconv. rewrite Hconv. cbn [fst snd length].
      now apply IH.
  - destruct open as [[j u]|]; cbn [tracks] in Ht.
    + destruct Ht as [m0 Hp]. rewrite (round_pending s j m0 u now env Hp).
      destruct (Qle_bool (stable_sec s) (now - u)).
      * rewrite (flush_pending s j m0 u env Hp). cbn [fst snd length].
        rewrite (IH _ None); [reflexivity|]. apply set_pending_none.
      * cbn [fst snd length]. apply IH. now exists m0.
    + rewrite (round_no_pending s now env Ht). cbn [fst snd length].
      now apply IH.
  - unfold flush_now. destruct open as [[j u]|]; cbn [tracks] in Ht.
    + destruct Ht as [m0 Hp].
      rewrite (flush_pending s j m0 u env Hp). cbn [fst snd length].
      rewrite (IH _ None); [reflexivity|]. apply set_pending_none.
    + rewrite (flush_no_pending s env Ht). cbn [fst snd length].
      now apply IH.
Qed.

(** C1.  For every finite sequence of inbound records, timeout checks and
    forced flushes given to a freshly constructed stabilizer, the number of
    finalized records equals the number of runs of consecutive same-id
    records that the sequence ends (by a record of another id, by a timeout
    or by a forced flush). *)
Theorem finalized_records_count_ended_runs (stable interval : Q)
    (callback : bool) (xs : list stimulus) :
  length (snd (run (map call_of xs) (__init__ stable interval callback)))
  = ended_runs stable None xs.
Proof.
  apply (finalized_count_from xs (__init__ stable interval callback) None).
  repeat split.
Qed.

(** For records that are all forwarded and a final forced flush, the runs
    that end are the maximal runs of equal consecutive ids. *)
Lemma ended_runs_ingests_then_flush (stable : Q)
    (rs : list (yukacone_data * Q * flush_env)) (ids : list string)
    (env : flush_env) :
  map (fun r => forwarded_id (fst (fst r))) rs = map Some ids ->
  ended_runs stable None
    (map (fun r => Ingest (fst (fst r)) (snd (fst r)) (snd r)) rs
       ++ [ForceFlush env])
  = count_runs ids.
Proof.
  assert (Hopen : forall rs ids j u,
    map (fun r => forwarded_id (fst (fst r))) rs = map Some ids ->
    ended_runs stable (Some (j, u))
      (map (fun r => Ingest (fst (fst r)) (snd (fst r)) (snd r)) rs
         ++ [ForceFlush env])
    = count_runs (j :: ids)).
  { clear rs ids. induction rs as [|[[d now] e] rs IH]; intros ids j u H.
    - destruct ids; [reflexivity|discriminate].
    - destruct ids as [|i ids]; [discriminate|].
      cbn in H. injection H as Hi Hrest.
      cbn [map app fst snd ended_runs]. rewrite Hi.
      rewrite (IH ids i now Hrest).
      cbn [count_runs]. rewrite (String.eqb_sym i j). reflexivity. }
  destruct rs as [|[[d now] e] rs]; intros H.
  - destruct ids; [reflexivity|discriminate].
  - destruct ids as [|i ids]; [discriminate|].
    cbn in H. injection H as Hi Hrest.
    cbn [map app fst snd ended_runs]. rewrite Hi.
    apply Hopen, Hrest.
Qed.

(** On the logger itself: records that are all forwarded, followed by a
    forced flush, finalize one record per maximal run of equal consecutive
    ids. *)
Lemma finalized_count_ingests_then_flush (stable interval : Q)
    (callback : bool) (rs : list (yukacone_data * Q * flush_env))
    (ids : list string) (env : flush_env) :
  map (fun r => forwarded_id (fst (fst r))) rs = map Some ids ->
  length
    (snd (run (map call_of
                 (map (fun r => Ingest (fst (fst r)) (snd (fst r)) (snd r)) rs
                    ++ [ForceFlush env]))
            (__init__ stable interval callback)))
  = count_runs ids.
Proof.
  intros H.
  rewrite (finalized_count_from _ (__init__ stable interval callback) None)
    by repeat split.
  now apply ended_runs_ingests_then_flush.
Qed.

(** ** The log file *)

Lemma flush_written env s :
  Forall (fun r => written r = write_ok env) (snd (_flush_locked env s)).
Proof.
  unfold _flush_locked. destruct (last_data s) as [d|]; [|constructor].
  destruct (negb (dict_truthy d)); repeat constructor.
Qed.

Lemma step_written x s :
  write_succeeds x ->
  Forall (fun r => written r = true) (snd (step (call_of x) s)).
Proof.
  destruct x as [data now env|now env|env]; cbn [write_succeeds call_of step];
    intros <-.
  - unfold add_yukacone_message, _add_message_internal.
    destruct (_convert_to_internal_format data) as [m|]; [|constructor].
    destruct (negb (dict_truthy m)); [constructor|].
    destruct (MsgID m); [|constructor].
    destruct (current_id s); [|constructor].
    destruct (negb _); [|constructor].
    pose proof (flush_written env s) as H.
    destruct (_flush_locked env s) as [flushed out]. exact H.
  - unfold _periodic_flush_round.
    destruct (current_id s); [|constructor].
    destruct (last_update_time s); [|constructor].
    destruct (Qle_bool _ _); [apply flush_written|constructor].
  - apply flush_written.
Qed.

(** When every append succeeds, the log file has one line per run that
    ended. *)
Lemma log_file_lines_count (stable interval : Q) (callback : bool)
    (xs : list stimulus) :
  Forall write_succeeds xs ->
  length (log_file (snd (run (map call_of xs)
                           (__init__ stable interval callback))))
  = ended_runs stable None xs.
Proof.
  intros Hall.
  change stable with (stable_sec (__init__ stable interval callback)) at 2.
  rewrite <- (finalized_count_from xs (__init__ stable interval callback) None)
    by repeat split.
  unfold log_file. rewrite length_map. f_equal.
  apply forallb_filter_id, forallb_forall, Forall_forall.
  generalize (__init__ stable interval callback) as s.
  induction Hall as [|x xs Hx _ IH]; intros s; [constructor|].
  cbn [map]. rewrite run_cons. cbn [snd].
  apply Forall_app. split; [now apply step_written|apply IH].
Qed.

(** ** Last write wins, flush on id switch, inert malformed input *)

(** Whatever the state before, a message that carries an id is the pending
    one once it has been added. *)
Lemma ingest_becomes_pending s m i now env :
  MsgID m = Some i ->
  pending (fst (_add_message_internal m now env s)) i m now.
Proof.
  intros Hi. unfold _add_message_internal. rewrite Hi.
  destruct (current_id s) as [cur|] eqn:Hc; cbn.
  - destruct (String.eqb_spec i cur) as [->|Hne]; cbn.
    + repeat split; assumption.
    + destruct (_flush_locked env s) as [s1 out]; cbn.
      repeat split; assumption.
  - repeat split; assumption.
Qed.

Lemma add_becomes_pending s data m i now env :
  _convert_to_internal_format data = Some m ->
  MessageID data = Some i ->
  pending (fst (add_yukacone_message data now env s)) i m now.
Proof.
  intros Hconv Hid. rewrite (add_forwarded _ _ now env s Hconv).
  apply ingest_becomes_pending.
  destruct (convert_msg_id _ _ Hconv) as (-> & _). exact Hid.
Qed.

Lemma add_same_id s data m i m0 u now env :
  _convert_to_internal_format data = Some m ->
  MessageID data = Some i ->
  pending s i m0 u ->
  add_yukacone_message data now env s =
    (set_pending s (Some i) (Some m) (Some now), []).
Proof.
  intros Hconv Hid Hp. rewrite (add_forwarded _ _ now env s Hconv).
  apply (ingest_same_id s m i m0 u); [|exact Hp].
  destruct (convert_msg_id _ _ Hconv) as (-> & _). exact Hid.
Qed.

(** C3.  After three records with the same id [a] in a row, converted to
    the payloads [P1], [P2], [P3], the pending message is [a] with payload
    [P3] as a whole, the second and third record finalized nothing, and the
    flush that follows finalizes exactly one record, with payload [P3], and
    leaves nothing pending. *)
Theorem last_write_wins (s : t) (a : string) (d1 d2 d3 : yukacone_data)
    (P1 P2 P3 : msg) (t1 t2 t3 : Q) (e1 e2 e3 : flush_env) :
  MessageID d1 = Some a -> MessageID d2 = Some a -> MessageID d3 = Some a ->
  _convert_to_internal_format d1 = Some P1 ->
  _convert_to_internal_format d2 = Some P2 ->
  _convert_to_internal_format d3 = Some P3 ->
  let s1 := fst (add_yukacone_message d1 t1 e1 s) in
  let s3 := fst (run [Add d2 t2 e2; Add d3 t3 e3] s1) in
  snd (run [Add d2 t2 e2; Add d3 t3 e3] s1) = []
  /\ pending s3 a P3 t3
  /\ forall env : flush_env,
       snd (flush_now env s3) =
         [ {| payload := P3;
              line := format_line (timestamp env) P3;
              written := write_ok env;
              notified := on_message_logged s |} ]
       /\ no_pending (fst (flush_now env s3)).
Proof.
  intros Ha1 Ha2 Ha3 H1 H2 H3 s1 s3.
  pose proof (add_becomes_pending s d1 P1 a t1 e1 H1 Ha1) as Hp1.
  fold s1 in Hp1.
  assert (Hcb : on_message_logged s1 = on_message_logged s).
  { subst s1. rewrite (add_forwarded _ _ t1 e1 s H1).
    unfold _add_message_internal, _flush_locked.
    destruct (MsgID P1); [|reflexivity].
    destruct (current_id s); [|reflexivity].
    destruct (negb _); [|reflexivity].
    destruct (last_data s) as [d|]; [|reflexivity].
    destruct (negb (dict_truthy d)); reflexivity. }
  assert (Hrun : run [Add d2 t2 e2; Add d3 t3 e3] s1 =
                 (set_pending s1 (Some a) (Some P3) (Some t3), [])).
  { cbn [run step].
    rewrite (add_same_id s1 d2 P2 a P1 t1 t2 e2 H2 Ha2 Hp1).
    rewrite (add_same_id _ d3 P3 a P2 t2 t3 e3 H3 Ha3).
    - reflexivity.
    - apply set_pending_some.
      destruct (convert_msg_id _ _ H2) as (-> & _). exact Ha2. }
  assert (Hp3 : pending s3 a P3 t3).
  { subst s3. rewrite Hrun. apply set_pending_some.
    destruct (convert_msg_id _ _ H3) as (-> & _). exact Ha3. }
  split; [now rewrite Hrun|]. split; [exact Hp3|].
  intros env. unfold flush_now.
  rewrite (flush_pending s3 a P3 t3 env Hp3). cbn [fst snd]. split.
  - subst s3. rewrite Hrun. cbn [fst on_message_logged set_pending].
    now rewrite Hcb.
  - apply set_pending_none.
Qed.

Lemma last_write_wins_witness :
  snd (run [Add (Samples.hello "a" "Hello 1") 2 Samples.env0;
            Add (Samples.hello "a" "Hello 2") 3 Samples.env0]
         (fst (add_yukacone_message (Samples.hello "a" "Hello 0") 1
                 Samples.env0 Samples.fresh_logger))) = []
  /\ pending
       (fst (run [Add (Samples.hello "a" "Hello 1") 2 Samples.env0;
                  Add (Samples.hello "a" "Hello 2") 3 Samples.env0]
               (fst (add_yukacone_message (Samples.hello "a" "Hello 0") 1
                       Samples.env0 Samples.fresh_logger))))
       "a" (Samples.hello_msg "a" "Hello 2") 3
  /\ forall env : flush_env,
       snd (flush_now env
              (fst (run [Add (Samples.hello "a" "Hello 1") 2 Samples.env0;
                         Add (Samples.hello "a" "Hello 2") 3 Samples.env0]
                      (fst (add_yukacone_message (Samples.hello "a" "Hello 0")
                              1 Samples.env0 Samples.fresh_logger))))) =
         [ {| payload := Samples.hello_msg "a" "Hello 2";
              line := format_line (timestamp env)
                        (Samples.hello_msg "a" "Hello 2");
              written := write_ok env;
              notified := on_message_logged Samples.fresh_logger |} ]
       /\ no_pending
            (fst (flush_now env
               (fst (run [Add (Samples.hello "a" "Hello 1") 2 Samples.env0;
                          Add (Samples.hello "a" "Hello 2") 3 Samples.env0]
                       (fst (add_yukacone_message
                               (Samples.hello "a" "Hello 0") 1 Samples.env0
                               Samples.fresh_logger)))))).
Proof.
  apply (last_write_wins Samples.fresh_logger "a"
           (Samples.hello "a" "Hello 0") (Samples.hello "a" "Hello 1")
           (Samples.hello "a" "Hello 2")
           (Samples.hello_msg "a" "Hello 0") (Samples.hello_msg "a" "Hello 1")
           (Samples.hello_msg "a" "Hello 2"));
    reflexivity.
Defined.

(** C4.  With the message [a] pending with payload [P1], a record with
    another id [b], converted to [P2], finalizes exactly one record, which
    carries [P1], and leaves [b] pending with payload [P2]. *)
Theorem id_switch_flushes_first (s : t) (a b : string) (P1 P2 : msg)
    (u now : Q) (d2 : yukacone_data) (env : flush_env) :
  pending s a P1 u ->
  MessageID d2 = Some b ->
  _convert_to_internal_format d2 = Some P2 ->
  b <> a ->
  snd (add_yukacone_message d2 now env s) =
    [ {| payload := P1;
         line := format_line (timestamp env) P1;
         written := write_ok env;
         notified := on_message_logged s |} ]
  /\ pending (fst (add_yukacone_message d2 now env s)) b P2 now.
Proof.
  intros Hp Hb Hconv Hne.
  split; [|now apply add_becomes_pending].
  rewrite (add_forwarded _ _ now env s Hconv).
  rewrite (ingest_other_id s P2 b a P1 u now env); [reflexivity| |exact Hp|exact Hne].
  destruct (convert_msg_id _ _ Hconv) as (-> & _). exact Hb.
Qed.

Lemma id_switch_flushes_first_witness :
  snd (add_yukacone_message (Samples.hello "b" "Goodbye") 5 Samples.env0
         (fst (add_yukacone_message (Samples.hello "a" "Hello") 1
                 Samples.env0 Samples.fresh_logger))) =
    [ {| payload := Samples.hello_msg "a" "Hello";
         line := format_line (timestamp Samples.env0)
                   (Samples.hello_msg "a" "Hello");
         written := write_ok Samples.env0;
         notified :=
           on_message_logged
             (fst (add_yukacone_message (Samples.hello "a" "Hello") 1
                     Samples.env0 Samples.fresh_logger)) |} ]
  /\ pending
       (fst (add_yukacone_message (Samples.hello "b" "Goodbye") 5 Samples.env0
               (fst (add_yukacone_message (Samples.hello "a" "Hello") 1
                       Samples.env0 Samples.fresh_logger))))
       "b" (Samples.hello_msg "b" "Goodbye") 5.
Proof.
  apply (id_switch_flushes_first
           (fst (add_yukacone_message (Samples.hello "a" "Hello") 1
                   Samples.env0 Samples.fresh_logger))
           "a" "b" (Samples.hello_msg "a" "Hello")
           (Samples.hello_msg "b" "Goodbye") 1 5
           (Samples.hello "b" "Goodbye") Samples.env0).
  - repeat split.
  - reflexivity.
  - reflexivity.
  - discriminate.
Defined.

(** C6.  A record without an id, or with fewer than two entries, changes
    nothing: the logger is the same after the call and no record is
    finalized. *)
Theorem malformed_record_is_inert (data : yukacone_data) (now : Q)
    (env : flush_env) (s : t) :
  MessageID data = None \/ (length (text_list_of data) < 2)%nat ->
  add_yukacone_message data now env s = (s, []).
Proof.
  intros H. unfold add_yukacone_message.
  replace (_convert_to_internal_format data) with (@None msg); [reflexivity|].
  symmetry. unfold _convert_to_internal_format.
  destruct H as [-> | H]; [reflexivity|].
  destruct (MessageID data); [|reflexivity].
  destruct (text_list_of data) as [|e0 [|e1 l]]; cbn in H; try reflexivity; lia.
Qed.

Lemma malformed_record_is_inert_witness :
  add_yukacone_message Samples.one_entry 7 Samples.env0
    (fst (add_yukacone_message (Samples.hello "a" "Hello") 1 Samples.env0
            Samples.fresh_logger))
  = (fst (add_yukacone_message (Samples.hello "a" "Hello") 1 Samples.env0
            Samples.fresh_logger), []).
Proof.
  apply (malformed_record_is_inert Samples.one_entry 7 Samples.env0).
  right. cbn. lia.
Defined.

(** C10.  The pending-state fields are all-or-nothing: after construction
    and after every sequence of operations on the constructed logger
    (records well-formed or not, periodic rounds, forced flushes, start,
    stop), [current_id], [last_data] and [last_update_time] are either all
    [None] or all set. *)
Theorem pending_fields_all_or_nothing (stable interval : Q) (callback : bool)
    (cs : list call) :
  all_or_nothing (fst (run cs (__init__ stable interval callback))).
Proof.
  apply all_or_nothing_run. left. repeat split.
Qed.

End StabilizerProofs.

(* ===================================================================== *)
(** * Properties of the session layer                                     *)
(* ===================================================================== *)

Module SessionProofs.
Import Py YukaconeClient MediaKeyController SessionSpec.

(** ** The frame *)

Lemma frame_refl w : frame w w.
Proof.
  split; try reflexivity.
  exists []. split; [now rewrite app_nil_r|constructor].
Qed.

Lemma frame_trans w1 w2 w3 : frame w1 w2 -> frame w2 w3 -> frame w1 w3.
Proof.
  intros [n1 p1 c1 d1 m1 (e1 & t1 & f1)] [n2 p2 c2 d2 m2 (e2 & t2 & f2)].
  split; try congruence.
  exists (e1 ++ e2). split.
  - now rewrite t2, t1, app_assoc.
  - now apply Forall_app.
Qed.

Lemma frame_step w c n tr evs :
  translation_profiles c = translation_profiles (client w) ->
  YukaconeClient.on_status_change c
  = YukaconeClient.on_status_change (client w) ->
  reconnect_delay c = reconnect_delay (client w) ->
  max_reconnect_delay c = max_reconnect_delay (client w) ->
  tr = trace w ++ evs ->
  Forall client_event evs ->
  frame w {| client := c; network := network w; requests_sent := n;
             trace := tr |}.
Proof.
  intros. split; cbn; auto. exists evs; auto.
Qed.

(** Unfolds the monad and the primitives of the world. *)
Ltac py_unfold :=
  cbv beta iota zeta delta
    [bind ret raise try_except when get_self update_self emit requests_get
     _call_api notify_status_change profile_at except_Exception
     except_RequestException].

(** Proves a frame between a world and an explicit later world. *)
Ltac frame_solve :=
  match goal with
  | |- frame ?w ?w => apply frame_refl
  | |- frame _ _ =>
      eapply frame_step;
      [ reflexivity | reflexivity | reflexivity | reflexivity
      | cbn [trace]; repeat rewrite <- app_assoc; cbn [app]; reflexivity
      | repeat constructor ]
  end.

(** Closes a case in which a request raised although none does. *)
Ltac contradict_no_other_error :=
  match goal with
  | Hok : no_other_error ?net, Hnet : ?net ?n = HttpOtherError |- _ =>
      exfalso; exact (Hok n Hnet)
  end.

(** ** The control client *)

(** [_call_api] answers [False] to an exception of the requests hierarchy
    and lets any other exception through. *)
Lemma call_api_eq path params w :
  _call_api path params w =
    match network w (requests_sent w) with
    | HttpOk => (Return true, exec (requests_get path params) w)
    | HttpRequestError => (Return false, exec (requests_get path params) w)
    | HttpOtherError => (Raise OtherException, exec (requests_get path params) w)
    end.
Proof.
  unfold exec. py_unfold.
  destruct (network w (requests_sent w)); reflexivity.
Qed.

(** ** [set_mute] and [set_translation_profile] *)

Lemma set_mute_spec muted w :
  exists r w',
    set_mute muted w = (Return r, w')
    /\ frame w w'
    /\ current_profile_index (client w') = current_profile_index (client w)
    /\ last_recognition_language (client w')
       = last_recognition_language (client w)
    /\ is_muted (client w') = (if r then muted else is_muted (client w))
    /\ (r = false <-> network w (requests_sent w) = HttpOtherError).
Proof.
  unfold set_mute. py_unfold. cbn.
  destruct (network w (requests_sent w)) eqn:Hnet; cbn;
    try destruct (YukaconeClient.on_status_change (client w)) eqn:Hcb; cbn;
    do 2 eexists; (split; [reflexivity|]); cbn;
    (split; [frame_solve|]); repeat split; try congruence; try reflexivity.
Qed.

Lemma set_translation_profile_spec index w :
  exists r w',
    set_translation_profile index w = (Return r, w')
    /\ frame w w'
    /\ is_muted (client w') = is_muted (client w)
    /\ current_profile_index (client w') =
         (if r then index else current_profile_index (client w))
    /\ (r = true ->
        (0 <= index < Z.of_nat (length (translation_profiles (client w))))%Z)
    /\ (no_other_error (network w) ->
        (0 <= index < Z.of_nat (length (translation_profiles (client w))))%Z ->
        r = true).
Proof.
  unfold set_translation_profile. py_unfold. cbn.
  destruct (index <? 0)%Z eqn:Hneg; cbn.
  { do 2 eexists. split; [reflexivity|]. split; [frame_solve|].
    repeat split; try discriminate. apply Z.ltb_lt in Hneg. lia. }
  destruct (Z.of_nat (length (translation_profiles (client w))) <=? index)%Z
    eqn:Hhigh; cbn.
  { do 2 eexists. split; [reflexivity|]. split; [frame_solve|].
    repeat split; try discriminate. apply Z.leb_le in Hhigh. lia. }
  apply Z.ltb_ge in Hneg. apply Z.leb_gt in Hhigh.
  destruct (nth_error (translation_profiles (client w)) (Z.to_nat index))
    as [p|] eqn:Hnth; cbn.
  2:{ apply nth_error_None in Hnth. lia. }
  destruct (option_string_eqb (recognition_language p)
              (last_recognition_language (client w))); cbn;
    destruct (network w (requests_sent w)) eqn:Hnet1; cbn;
    try (destruct (network w (S (requests_sent w))) eqn:Hnet2; cbn);
    try (destruct (YukaconeClient.on_status_change (client w)); cbn);
    do 2 eexists; (split; [reflexivity|]); cbn;
    (split; [frame_solve|]);
    repeat split; intros; try reflexivity; try lia;
    try contradict_no_other_error.
Qed.

(** ** Cycling through the profiles *)

Lemma profiles_nonempty_length (c : YukaconeClient.t) :
  translation_profiles c <> [] ->
  (0 < Z.of_nat (length (translation_profiles c)))%Z.
Proof. destruct (translation_profiles c); [congruence|cbn; lia]. Qed.

Lemma next_profile_eq w :
  translation_profiles (client w) <> [] ->
  next_profile w =
    set_translation_profile
      ((current_profile_index (client w) + 1)
         mod Z.of_nat (length (translation_profiles (client w)))) w.
Proof.
  intros H. apply profiles_nonempty_length in H.
  unfold next_profile, bind, get_self.
  destruct (Z.eqb_spec (Z.of_nat (length (translation_profiles (client w)))) 0);
    [lia|reflexivity].
Qed.

Lemma previous_profile_eq w :
  translation_profiles (client w) <> [] ->
  previous_profile w =
    set_translation_profile
      ((current_profile_index (client w) - 1)
         mod Z.of_nat (length (translation_profiles (client w)))) w.
Proof.
  intros H. apply profiles_nonempty_length in H.
  unfold previous_profile, bind, get_self.
  destruct (Z.eqb_spec (Z.of_nat (length (translation_profiles (client w)))) 0);
    [lia|reflexivity].
Qed.

(** With no profile at all, [%] raises before anything is done. *)
Lemma next_profile_no_profiles w :
  translation_profiles (client w) = [] ->
  next_profile w = (Raise ZeroDivisionError, w)
  /\ previous_profile w = (Raise ZeroDivisionError, w).
Proof.
  intros H. unfold next_profile, previous_profile, bind, get_self, raise.
  rewrite H. split; reflexivity.
Qed.

Section AllControlCallsSucceed.

Variable w : world.
Hypothesis profiles_nonempty : translation_profiles (client w) <> [].
Hypothesis calls_succeed : all_ok (network w).

Let N : Z := Z.of_nat (length (translation_profiles (client w))).

(** A profile change to an index in range succeeds. *)
Lemma set_translation_profile_all_ok (index : Z) :
  (0 <= index < N)%Z ->
  exists w',
    set_translation_profile index w = (Return true, w')
    /\ frame w w'
    /\ current_profile_index (client w') = index.
Proof.
  intros Hin.
  destruct (set_translation_profile_spec index w)
    as (r & w' & Heq & Hfr & _ & Hidx & _ & Hsucc).
  assert (r = true) as ->.
  { apply Hsucc; [|exact Hin]. intros n. now rewrite calls_succeed. }
  exists w'. auto.
Qed.

(** [next_profile] moves to [(index + 1) mod N]. *)
Lemma next_profile_all_ok :
  exists w',
    next_profile w = (Return true, w')
    /\ frame w w'
    /\ current_profile_index (client w') =
         ((current_profile_index (client w) + 1) mod N)%Z.
Proof.
  rewrite (next_profile_eq w profiles_nonempty).
  apply set_translation_profile_all_ok, Z.mod_pos_bound.
  now apply profiles_nonempty_length.
Qed.

(** [previous_profile] moves to [(index - 1) mod N]. *)
Lemma previous_profile_all_ok :
  exists w',
    previous_profile w = (Return true, w')
    /\ frame w w'
    /\ current_profile_index (client w') =
         ((current_profile_index (client w) - 1) mod N)%Z.
Proof.
  rewrite (previous_profile_eq w profiles_nonempty).
  apply set_translation_profile_all_ok, Z.mod_pos_bound.
  now apply profiles_nonempty_length.
Qed.

End AllControlCallsSucceed.

Lemma in_range_nonempty (c : YukaconeClient.t) :
  index_in_range c -> translation_profiles c <> [].
Proof.
  unfold index_in_range. intros Hin E. rewrite E in Hin. cbn in Hin. lia.
Qed.

Lemma next_profile_times (k : nat) :
  forall w,
    index_in_range (client w) ->
    all_ok (network w) ->
    current_profile_index (client (exec_times k next_profile w)) =
      ((current_profile_index (client w) + Z.of_nat k)
         mod Z.of_nat (length (translation_profiles (client w))))%Z.
Proof.
  induction k as [|k IH]; intros w Hin Hok.
  - cbn [exec_times]. rewrite Z.add_0_r. symmetry. now apply Z.mod_small.
  - pose proof (in_range_nonempty _ Hin) as Hne.
    pose proof (profiles_nonempty_length _ Hne) as Hpos.
    destruct (next_profile_all_ok w Hne Hok) as (w' & Heq & Hfr & Hidx).
    cbn [exec_times]. unfold exec at 1. rewrite Heq. cbn [snd].
    rewrite IH.
    + rewrite Hidx, (frame_profiles _ _ Hfr), Zplus_mod_idemp_l.
      f_equal; lia.
    + unfold index_in_range. rewrite Hidx, (frame_profiles _ _ Hfr).
      now apply Z.mod_pos_bound.
    + rewrite (frame_network _ _ Hfr). exact Hok.
Qed.

(** C8.  With a non-empty list of [N] profiles and every control call
    succeeding, from index 0: each [next_profile] moves from [i] to
    [(i + 1) mod N], [N] calls of [next_profile] come back to index 0, and
    one [previous_profile] goes to index [N - 1]. *)
Theorem profile_wraparound (w : world) :
  translation_profiles (client w) <> [] ->
  all_ok (network w) ->
  current_profile_index (client w) = 0%Z ->
  let N := length (translation_profiles (client w)) in
  (forall k : nat,
      current_profile_index (client (exec_times (S k) next_profile w)) =
        ((current_profile_index (client (exec_times k next_profile w)) + 1)
           mod Z.of_nat N)%Z)
  /\ current_profile_index (client (exec_times N next_profile w)) = 0%Z
  /\ current_profile_index (client (exec previous_profile w))
     = (Z.of_nat N - 1)%Z.
Proof.
  intros Hne Hok H0 N.
  pose proof (profiles_nonempty_length _ Hne) as Hpos. fold N in Hpos.
  assert (Hk : forall k,
    current_profile_index (client (exec_times k next_profile w))
    = (Z.of_nat k mod Z.of_nat N)%Z).
  { intros k. rewrite next_profile_times; [now rewrite H0|  |exact Hok].
    unfold index_in_range. rewrite H0. fold N. lia. }
  split; [|split].
  - intros k. rewrite !Hk, Zplus_mod_idemp_l. f_equal; lia.
  - rewrite Hk. apply Z.mod_same. lia.
  - destruct (previous_profile_all_ok w Hne Hok) as (w' & Heq & _ & Hidx).
    unfold exec. rewrite Heq. cbn [snd]. rewrite Hidx, H0. fold N.
    replace (0 - 1)%Z with (Z.of_nat N - 1 + (-1) * Z.of_nat N)%Z by lia.
    rewrite Z.mod_add by lia. apply Z.mod_small. lia.
Qed.

Lemma profile_wraparound_witness :
  (forall k : nat,
      current_profile_index
        (client (exec_times (S k) next_profile
                   (Samples.fresh_world
                      [Samples.ja_en; Samples.ja_zh; Samples.en_ja]
                      (fun _ => HttpOk)))) =
        ((current_profile_index
            (client (exec_times k next_profile
                       (Samples.fresh_world
                          [Samples.ja_en; Samples.ja_zh; Samples.en_ja]
                          (fun _ => HttpOk)))) + 1) mod 3)%Z)
  /\ current_profile_index
       (client (exec_times 3 next_profile
                  (Samples.fresh_world
                     [Samples.ja_en; Samples.ja_zh; Samples.en_ja]
                     (fun _ => HttpOk)))) = 0%Z
  /\ current_profile_index
       (client (exec previous_profile
                  (Samples.fresh_world
                     [Samples.ja_en; Samples.ja_zh; Samples.en_ja]
                     (fun _ => HttpOk)))) = 2%Z.
Proof.
  apply (profile_wraparound
           (Samples.fresh_world [Samples.ja_en; Samples.ja_zh; Samples.en_ja]
              (fun _ => HttpOk))).
  - discriminate.
  - intros n. reflexivity.
  - reflexivity.
Defined.

(** ** The index invariant *)

(** Every operation of the session controller keeps
    [0 <= current_profile_index < len(translation_profiles)], whatever the
    control endpoint answers. *)
Lemma profile_index_stays_in_range (o : operation) (w : world) :
  index_in_range (client w) ->
  index_in_range (client (exec (perform o) w)).
Proof.
  intros Hin. pose proof (in_range_nonempty _ Hin) as Hne.
  unfold index_in_range in *.
  assert (Hset : forall index,
    (0 <= current_profile_index (client (exec (set_translation_profile index) w))
     < Z.of_nat (length (translation_profiles
                   (client (exec (set_translation_profile index) w)))))%Z).
  { intros index.
    destruct (set_translation_profile_spec index w)
      as (r & w' & Heq & Hfr & _ & Hidx & Hrange & _).
    unfold exec. rewrite Heq. cbn [snd].
    rewrite Hidx, (frame_profiles _ _ Hfr).
    destruct r; [now apply Hrange|exact Hin]. }
  assert (Hmute : forall muted,
    (0 <= current_profile_index (client (exec (set_mute muted) w))
     < Z.of_nat (length (translation_profiles
                   (client (exec (set_mute muted) w)))))%Z).
  { intros muted.
    destruct (set_mute_spec muted w) as (r & w' & Heq & Hfr & Hidx & _).
    unfold exec. rewrite Heq. cbn [snd].
    now rewrite Hidx, (frame_profiles _ _ Hfr). }
  destruct o as [index| | |muted|]; cbn [perform].
  - apply Hset.
  - unfold exec. rewrite (next_profile_eq w Hne). apply Hset.
  - unfold exec. rewrite (previous_profile_eq w Hne). apply Hset.
  - apply Hmute.
  - apply Hmute.
Qed.

(** ** Control calls that fail *)

(** A failure inside the requests hierarchy does not reach [set_mute]: the
    call returns [True] and the flag is written. *)
Lemma set_mute_request_error muted w :
  network w (requests_sent w) = HttpRequestError ->
  fst (set_mute muted w) = Return true
  /\ is_muted (client (exec (set_mute muted) w)) = muted.
Proof.
  intros Hnet.
  destruct (set_mute_spec muted w) as (r & w' & Heq & _ & _ & _ & Hm & Hr).
  unfold exec. rewrite Heq. cbn [fst snd].
  destruct r.
  - now split.
  - destruct Hr as [Hr _]. rewrite Hnet in Hr. now specialize (Hr eq_refl).
Qed.

(** Likewise for [set_translation_profile]: as long as no exception outside
    the requests hierarchy occurs, a change to an index in range returns
    [True] and is written, whether the control calls succeeded or not. *)
Lemma set_translation_profile_request_errors index w :
  no_other_error (network w) ->
  (0 <= index < Z.of_nat (length (translation_profiles (client w))))%Z ->
  fst (set_translation_profile index w) = Return true
  /\ current_profile_index (client (exec (set_translation_profile index) w))
     = index.
Proof.
  intros Hnet Hin.
  destruct (set_translation_profile_spec index w)
    as (r & w' & Heq & _ & _ & Hidx & _ & Hsucc).
  unfold exec. rewrite Heq. cbn [fst snd].
  rewrite (Hsucc Hnet Hin) in *. now split.
Qed.

(** An exception that does reach [set_mute] makes it return [False] with
    the session state as it was. *)
Lemma set_mute_other_error muted w :
  network w (requests_sent w) = HttpOtherError ->
  fst (set_mute muted w) = Return false
  /\ session_state (client (exec (set_mute muted) w)) = session_state (client w).
Proof.
  intros Hnet.
  destruct (set_mute_spec muted w)
    as (r & w' & Heq & _ & Hi & Hl & Hm & Hr).
  unfold exec, session_state. rewrite Heq. cbn [fst snd].
  destruct Hr as [_ Hr]. rewrite (Hr Hnet) in *.
  now rewrite Hi, Hl, Hm.
Qed.

(** C2.  On a client with two profiles whose control endpoint rejects every
    request with an exception of the requests hierarchy,
    [set_translation_profile(1)] and [set_mute(False)] both return [True]
    and write the session state as if the calls had succeeded. *)
Theorem failed_control_call_is_applied :
  fst (set_translation_profile 1
         (Samples.fresh_world [Samples.ja_en; Samples.en_ja]
            (fun _ => HttpRequestError))) = Return true
  /\ session_state
       (client (Samples.fresh_world [Samples.ja_en; Samples.en_ja]
                  (fun _ => HttpRequestError))) = (0%Z, true, None)
  /\ session_state
       (client (exec (set_translation_profile 1)
                  (Samples.fresh_world [Samples.ja_en; Samples.en_ja]
                     (fun _ => HttpRequestError)))) = (1%Z, true, Some "en")
  /\ fst (set_mute false
            (Samples.fresh_world [Samples.ja_en; Samples.en_ja]
               (fun _ => HttpRequestError))) = Return true
  /\ session_state
       (client (exec (set_mute false)
                  (Samples.fresh_world [Samples.ja_en; Samples.en_ja]
                     (fun _ => HttpRequestError)))) = (0%Z, false, None).
Proof. repeat split. Qed.

(** C7.  On a freshly constructed client whose first control call (the
    recognition-language call) is rejected and whose later calls succeed,
    [set_translation_profile(0)] still records the profile's recognition
    language as the last one pushed, so that the next change of profile
    with the same language sends no recognition-language call at all. *)
Theorem recognition_language_recorded_after_failed_call :
  let net := fun n : nat => match n with O => HttpRequestError | _ => HttpOk end in
  let w := Samples.fresh_world [Samples.ja_en; Samples.ja_zh] net in
  last_recognition_language (client w) = None
  /\ trace (exec (set_translation_profile 0) w) =
       [ HttpGet "/setRecognitionParam" [("language", PStr "ja")];
         Slept (1 # 2);
         HttpGet "/setTranslationParam"
           [("slot", PInt 1); ("language", PStr "en-US");
            ("engine", PStr "google")];
         ClientStatusChange ]
  /\ network w 0 = HttpRequestError
  /\ last_recognition_language (client (exec (set_translation_profile 0) w))
     = Some "ja"
  /\ trace (exec (set_translation_profile 1)
              (exec (set_translation_profile 0) w)) =
       trace (exec (set_translation_profile 0) w)
       ++ [ HttpGet "/setTranslationParam"
              [("slot", PInt 1); ("language", PStr "zh-CN");
               ("engine", PStr "google")];
            ClientStatusChange ].
Proof. repeat split. Qed.

(** ** The key router *)

Lemma controller_notifications_app (a b : list event) :
  controller_notifications (a ++ b)
  = (controller_notifications a + controller_notifications b)%nat.
Proof.
  unfold controller_notifications. now rewrite filter_app, length_app.
Qed.

Lemma client_events_no_notification (evs : list event) :
  Forall client_event evs -> controller_notifications evs = 0%nat.
Proof.
  unfold controller_notifications, client_event.
  induction 1 as [|e evs He _ IH]; [reflexivity|].
  cbn. now rewrite He.
Qed.

Lemma frame_notifications w w' :
  frame w w' ->
  controller_notifications (trace w') = controller_notifications (trace w).
Proof.
  intros [_ _ _ _ _ (evs & -> & Hevs)].
  rewrite controller_notifications_app, (client_events_no_notification _ Hevs).
  lia.
Qed.

(** The first call of a key is a method of the client: it returns or raises
    within the frame. *)
Lemma first_call_frame key w : frame w (snd (first_call key w)).
Proof.
  assert (Hmute : forall muted, frame w (snd (set_mute muted w))).
  { intros muted. destruct (set_mute_spec muted w) as (r & w' & -> & Hfr & _).
    exact Hfr. }
  assert (Hset : forall index, frame w (snd (set_translation_profile index w))).
  { intros index.
    destruct (set_translation_profile_spec index w) as (r & w' & -> & Hfr & _).
    exact Hfr. }
  destruct key; cbn [first_call].
  - apply Hmute.
  - destruct (translation_profiles (client w)) eqn:E.
    + destruct (next_profile_no_profiles w E) as [-> _]. apply frame_refl.
    + rewrite next_profile_eq by congruence. apply Hset.
  - destruct (translation_profiles (client w)) eqn:E.
    + destruct (next_profile_no_profiles w E) as [_ ->]. apply frame_refl.
    + rewrite previous_profile_eq by congruence. apply Hset.
  - apply frame_refl.
Qed.

Lemma second_call_returns key w :
  exists r, second_call key w = (Return r, exec (second_call key) w)
  /\ frame w (exec (second_call key) w).
Proof.
  assert (Hmute : exists r,
    set_mute false w = (Return r, snd (set_mute false w))
    /\ frame w (snd (set_mute false w))).
  { destruct (set_mute_spec false w) as (r & w' & -> & Hfr & _).
    exists r. split; [reflexivity|exact Hfr]. }
  unfold exec.
  destruct key; cbn [second_call]; try exact Hmute;
    exists true; split; try reflexivity; apply frame_refl.
Qed.

Lemma send_status_and_notify_spec (self : MediaKeyController.t) w :
  send_status_and_notify self w
  = (Return tt, exec (send_status_and_notify self) w)
  /\ controller_notifications (trace (exec (send_status_and_notify self) w))
     = (controller_notifications (trace w)
        + if MediaKeyController.on_status_change self then 1 else 0)%nat.
Proof.
  unfold exec, send_status_and_notify, get_current_profile. py_unfold.
  destruct ((0 <=? current_profile_index (client w))%Z
            && (current_profile_index (client w)
                <? Z.of_nat (length (translation_profiles (client w))))%Z);
    cbn;
    [destruct (nth_error (translation_profiles (client w))
                 (Z.to_nat (current_profile_index (client w)))) as [p|];
     cbn; [destruct (profile_truthy p); cbn|]|];
    destruct (MediaKeyController.on_status_change self); cbn;
    (split; [reflexivity|]);
    unfold controller_notifications;
    rewrite ?filter_app, ?length_app; cbn; lia.
Qed.

(** C9.  For every key: the router makes the first call of the key
    ([toggle_mute], [next_profile] or [previous_profile]); only when that
    call returned [True] it goes on with [set_mute(False)] (for next and
    previous), sends the status and calls its own status-change callback.
    So the controller's callback runs once per key event whose first call
    returned [True] (when a callback is installed) and not at all
    otherwise. *)
Theorem key_event_routing (self : MediaKeyController.t) (key : Key)
    (w : world) :
  _on_key_press self key w =
    (Return tt,
     match first_call key w with
     | (Return true, w1) =>
         exec (send_status_and_notify self) (exec (second_call key) w1)
     | (_, w1) => w1
     end)
  /\ controller_notifications (trace (exec (_on_key_press self key) w)) =
       (controller_notifications (trace w)
        + match fst (first_call key w) with
          | Return true =>
              if MediaKeyController.on_status_change self then 1 else 0
          | _ => 0
          end)%nat.
Proof.
  assert (Heq : _on_key_press self key w =
    (Return tt,
     match first_call key w with
     | (Return true, w1) =>
         exec (send_status_and_notify self) (exec (second_call key) w1)
     | (_, w1) => w1
     end)).
  { unfold _on_key_press, _handle_play_pause, _handle_next, _handle_previous.
    unfold try_except, bind, when.
    destruct key; cbn [first_call second_call];
      try reflexivity;
      match goal with
      | |- context [first_call] => idtac
      | |- context [?c w] => destruct (c w) as [[[|]|e] w1]
      end; cbn; try reflexivity.
    - now rewrite (proj1 (send_status_and_notify_spec self w1)).
    - destruct (second_call_returns media_next w1) as (r & Hr & _).
      cbn [second_call] in Hr. rewrite Hr.
      now rewrite (proj1 (send_status_and_notify_spec self _)).
    - destruct (second_call_returns media_previous w1) as (r & Hr & _).
      cbn [second_call] in Hr. rewrite Hr.
      now rewrite (proj1 (send_status_and_notify_spec self _)). }
  split; [exact Heq|].
  unfold exec at 1. rewrite Heq. cbn [snd].
  pose proof (first_call_frame key w) as Hfirst.
  destruct (first_call key w) as [[[|]|e] w1]; cbn [fst snd] in *.
  - rewrite (proj2 (send_status_and_notify_spec self _)).
    destruct (second_call_returns key w1) as (r & _ & Hsecond).
    now rewrite (frame_notifications _ _ Hsecond),
                (frame_notifications _ _ Hfirst).
  - rewrite (frame_notifications _ _ Hfirst). lia.
  - rewrite (frame_notifications _ _ Hfirst). lia.
Qed.

(** Counterexample to "the status-change observer is invoked exactly once
    per key event".  With every control call succeeding, play/pause runs a
    status-change callback twice and next runs one three times (the client
    calls its own inside [set_mute] and [set_translation_profile], then the
    controller calls its own).  With the control endpoint raising outside
    the requests hierarchy, or with an empty list of profiles (where
    [next_profile] raises [ZeroDivisionError]), next runs none at all. *)
Lemma status_observer_not_once_per_key_event :
  status_notifications
    (trace (exec (_on_key_press Samples.controller media_play_pause)
              (Samples.fresh_world [Samples.ja_en; Samples.ja_zh]
                 (fun _ => HttpOk)))) = 2%nat
  /\ status_notifications
       (trace (exec (_on_key_press Samples.controller media_next)
                 (Samples.fresh_world [Samples.ja_en; Samples.ja_zh]
                    (fun _ => HttpOk)))) = 3%nat
  /\ status_notifications
       (trace (exec (_on_key_press Samples.controller media_next)
                 (Samples.fresh_world [Samples.ja_en; Samples.ja_zh]
                    (fun _ => HttpOtherError)))) = 0%nat
  /\ controller_notifications
       (trace (exec (_on_key_press Samples.controller media_next)
                 (Samples.fresh_world [Samples.ja_en; Samples.ja_zh]
                    (fun _ => HttpOtherError)))) = 0%nat
  /\ status_notifications
       (trace (exec (_on_key_press Samples.controller media_next)
                 (Samples.fresh_world [] (fun _ => HttpOk)))) = 0%nat.
Proof. repeat split. Qed.

(** ** The reconnect loop *)

Ltac loop_simpl :=
  cbn -[Nat.ltb max_float_exponent Qmin Qmult inject_Z Z.pow Z.of_nat].

Ltac loop_unfold :=
  cbn [_ws_connect_loop];
  unfold exec, backoff_delay, run_forever, _on_ws_open, disconnect; py_unfold.

(** A round that fails with the attempts counter at [n <= 1023] sleeps
    [min(reconnect_delay * 2^n, max_reconnect_delay)] and adds one to the
    counter. *)
Lemma failed_round a rest w :
  is_failure a ->
  _is_running (client w) = true ->
  (_reconnect_attempts (client w) <= max_float_exponent)%nat ->
  _ws_connect_loop (a :: rest) w = _ws_connect_loop rest (after_failed_round w).
Proof.
  intros (Hres & Hd1 & Hd2) Hrun Hatt.
  apply Nat.ltb_ge in Hatt.
  loop_unfold. rewrite Hrun, Hd1, Hd2. loop_simpl.
  destruct (result a); try congruence; loop_simpl;
    rewrite Hrun; loop_simpl; rewrite Hatt; loop_simpl;
    unfold after_failed_round, capped_backoff; rewrite <- app_assoc;
    reflexivity.
Qed.

(** A round that fails with the attempts counter beyond 1023 raises out of
    the loop before any sleep. *)
Lemma overflowing_round a rest w :
  is_failure a ->
  _is_running (client w) = true ->
  (max_float_exponent < _reconnect_attempts (client w))%nat ->
  _ws_connect_loop (a :: rest) w
  = (Raise OverflowError, exec (emit WsConnect) w).
Proof.
  intros (Hres & Hd1 & Hd2) Hrun Hatt.
  apply Nat.ltb_lt in Hatt.
  loop_unfold. rewrite Hrun, Hd1, Hd2. loop_simpl.
  destruct (result a); try congruence; loop_simpl;
    rewrite Hrun; loop_simpl; rewrite Hatt; reflexivity.
Qed.


(** Consecutive failures while the counter stays within 1024. *)
Lemma failed_rounds_then (script rest : list attempt) :
  forall w,
    Forall is_failure script ->
    _is_running (client w) = true ->
    (_reconnect_attempts (client w) + length script
     <= S max_float_exponent)%nat ->
    exists w',
      _ws_connect_loop (script ++ rest) w = _ws_connect_loop rest w'
      /\ _is_running (client w') = true
      /\ _reconnect_attempts (client w')
         = (_reconnect_attempts (client w) + length script)%nat
      /\ reconnect_delay (client w') = reconnect_delay (client w)
      /\ max_reconnect_delay (client w') = max_reconnect_delay (client w)
      /\ trace w' =
           trace w ++ failed_rounds (reconnect_delay (client w))
                        (max_reconnect_delay (client w))
                        (_reconnect_attempts (client w)) (length script).
Proof.
  induction script as [|a script IH]; intros w Hall Hrun Hatt.
  - exists w. cbn [app length failed_rounds].
    rewrite Nat.add_0_r, app_nil_r. repeat split. exact Hrun.
  - inversion Hall as [|? ? Ha Hrest]; subst. cbn [length] in Hatt.
    cbn [app]. rewrite (failed_round a (script ++ rest) w Ha Hrun) by lia.
    destruct (IH (after_failed_round w) Hrest Hrun)
      as (w' & Heq & Hr & Hn & Hd & Hm & Ht).
    { cbn. lia. }
    exists w'. split; [exact Heq|]. split; [exact Hr|].
    cbn in Hn, Hd, Hm, Ht.
    repeat split; try assumption.
    + rewrite Hn. cbn. lia.
    + rewrite Ht, <- app_assoc. reflexivity.
Qed.

Lemma delays_app (a b : list event) : delays (a ++ b) = delays a ++ delays b.
Proof.
  induction a as [|e a IH]; [reflexivity|].
  destruct e; cbn; now rewrite IH.
Qed.

Lemma delays_failed_rounds (base max_delay : Q) (k : nat) :
  forall a,
    delays (failed_rounds base max_delay a k)
    = map (capped_backoff base max_delay) (seq a k).
Proof.
  induction k as [|k IH]; intros a; [reflexivity|].
  cbn [failed_rounds delays seq map]. now rewrite IH.
Qed.

Lemma repeat_failures (a : attempt) (n : nat) :
  is_failure a -> Forall is_failure (repeat a n).
Proof.
  intros Ha. apply Forall_forall. intros x Hx.
  apply repeat_spec in Hx. now subst.
Qed.


(** Three failures, a connection that is opened and ends, one more failure:
    the delays are [d, 2d, 4d], then [d] again, then [2d]. *)
Example backoff_restarts_after_success :
  delays
    (trace (exec (_ws_connect_loop
                    [Samples.failed_attempt; Samples.failed_attempt;
                     Samples.failed_attempt; Samples.opened_attempt;
                     Samples.failed_attempt])
              (Samples.connected_world [Samples.ja_en; Samples.ja_zh]
                 (fun _ => HttpOk))))
  = map (capped_backoff 3 60) [0; 1; 2; 0; 1]%nat.
Proof. reflexivity. Qed.

(** C5.  On a connected client with the delays of main.py (3 s, capped at
    60 s), 1024 consecutive failed connection attempts sleep
    [min(3 * 2^i, 60)] for [i = 0 .. 1023]; the failure after them raises
    [OverflowError] out of the reconnect loop ([2 ** 1024] does not convert
    to a float), so that no further delay is slept and no further attempt
    is made. *)
Theorem reconnect_loop_ends_after_1024_failures :
  fst (_ws_connect_loop (repeat Samples.failed_attempt 1025)
         (Samples.connected_world [Samples.ja_en; Samples.ja_zh]
            (fun _ => HttpOk))) = Raise OverflowError
  /\ delays
       (trace (exec (_ws_connect_loop (repeat Samples.failed_attempt 1025))
                 (Samples.connected_world [Samples.ja_en; Samples.ja_zh]
                    (fun _ => HttpOk))))
     = map (capped_backoff 3 60) (seq 0 1024).
Proof.
  assert (Hfail : is_failure Samples.failed_attempt)
    by (repeat split; discriminate).
  change 1025%nat with (1024 + 1)%nat at 1 2. rewrite repeat_app.
  destruct (failed_rounds_then (repeat Samples.failed_attempt 1024)
              (repeat Samples.failed_attempt 1)
              (Samples.connected_world [Samples.ja_en; Samples.ja_zh]
                 (fun _ => HttpOk)))
    as (w' & Heq & Hrun & Hatt & _ & _ & Ht).
  - now apply repeat_failures.
  - reflexivity.
  - rewrite repeat_length. apply Nat.le_refl.
  - unfold exec. rewrite Heq. rewrite repeat_length in Hatt, Ht.
    cbn [repeat].
    rewrite (overflowing_round Samples.failed_attempt [] w' Hfail Hrun)
      by (rewrite Hatt; apply Nat.le_refl).
    cbn [fst snd]. split; [reflexivity|].
    unfold exec, emit. cbn [snd trace].
    rewrite Ht, !delays_app, delays_failed_rounds.
    cbn [delays Samples.connected_world trace client reconnect_delay
         max_reconnect_delay YukaconeClient.__init__ set_is_running
         _reconnect_attempts app].
    now rewrite app_nil_r.
Qed.

End SessionProofs.

(* ===================================================================== *)
(** * Further properties of the stabilizer                                *)
(* ===================================================================== *)

Module StabilizerBehaviour.
Import TranslationLogger StabilizerSpec StabilizerNotions StabilizerProofs.

(** ** What one call does *)

Lemma pending_of_fields s s1 i m u :
  pending_fields s1 = pending_fields s -> pending s i m u -> pending s1 i m u.
Proof.
  unfold pending_fields, pending. intros H (Hc & Hd & Hu & Hi).
  injection H as -> -> ->. auto.
Qed.

Lemma no_pending_of_fields s s1 :
  pending_fields s1 = pending_fields s -> no_pending s -> no_pending s1.
Proof.
  unfold pending_fields, no_pending. intros H (Hc & Hd & Hu).
  injection H as -> -> ->. auto.
Qed.

Lemma step_effect (c : call) (s : t) :
  coherent s -> effect c s (fst (step c s)) (snd (step c s)).
Proof.
  intros Hs. destruct c as [data now env|now env|env| |env]; cbn [step].
  - destruct (_convert_to_internal_format data) as [m|] eqn:Hconv.
    + destruct (convert_msg_id _ _ Hconv) as (Hid & _ & i & Hi).
      assert (Hdata : MessageID data = Some i) by congruence.
      rewrite (add_forwarded _ _ now env s Hconv).
      destruct Hs as [Hn | (j & m0 & u & Hp)].
      * rewrite (ingest_first s m i now env Hi Hn).
        eapply Accepts; eauto. now apply set_pending_some.
      * destruct (String.eqb_spec i j) as [->|Hne].
        -- rewrite (ingest_same_id s m j m0 u now env Hi Hp).
           eapply Accepts; eauto. now apply set_pending_some.
        -- rewrite (ingest_other_id s m i j m0 u now env Hi Hp Hne).
           eapply Switches; eauto. now apply set_pending_some.
    + unfold add_yukacone_message. rewrite Hconv. now apply Quiet.
  - destruct Hs as [Hn | (j & m0 & u & Hp)].
    + rewrite (round_no_pending s now env Hn). now apply Quiet.
    + rewrite (round_pending s j m0 u now env Hp).
      destruct (Qle_bool (stable_sec s) (now - u)); [|now apply Quiet].
      rewrite (flush_pending s j m0 u env Hp).
      eapply Flushes; eauto. apply set_pending_none.
  - unfold flush_now. destruct Hs as [Hn | (j & m0 & u & Hp)].
    + rewrite (flush_no_pending s env Hn). now apply Quiet.
    + rewrite (flush_pending s j m0 u env Hp).
      eapply Flushes; eauto. apply set_pending_none.
  - apply Quiet; [reflexivity|]. unfold start. now destruct (_thread s).
  - unfold stop. destruct (_thread s); cbn [negb]; [|now apply Quiet].
    destruct Hs as [Hn | (j & m0 & u & Hp)].
    + rewrite (flush_no_pending (set_thread s true true) env) by exact Hn.
      now apply Quiet.
    + rewrite (flush_pending (set_thread s true true) j m0 u env) by exact Hp.
      eapply Flushes; eauto. apply set_pending_none.
Qed.

Lemma effect_coherent c s s1 out :
  coherent s -> effect c s s1 out -> coherent s1.
Proof.
  intros Hs [_ Hf | i m u _ _ Hn | data now env i m _ _ _ _ _ Hp
            | data now env i j m m0 u _ _ _ _ _ _ Hp].
  - destruct Hs as [Hn | (i & m & u & Hp)].
    + left. eapply no_pending_of_fields; eauto.
    + right. exists i, m, u. eapply pending_of_fields; eauto.
  - now left.
  - right. eauto.
  - right. eauto.
Qed.

Lemma init_coherent stable interval callback :
  coherent (__init__ stable interval callback).
Proof. left. repeat split. Qed.

Lemma run_coherent (cs : list call) :
  forall s, coherent s -> coherent (fst (run cs s)).
Proof.
  induction cs as [|c cs IH]; intros s Hs; [exact Hs|].
  rewrite run_cons. cbn [fst]. apply IH.
  eapply effect_coherent; [exact Hs|]. now apply step_effect.
Qed.


(** ** The timeout *)



(** ** Flushing twice *)

(** X2.  A second forced flush right after a flush finalizes nothing and
    changes nothing, whatever the state was before the first one: a record
    is never finalized twice by flushing again. *)
Theorem flush_twice_is_flush_once (s : t) (env1 env2 : flush_env) :
  flush_now env2 (fst (flush_now env1 s)) = (fst (flush_now env1 s), []).
Proof.
  unfold flush_now, _flush_locked.
  destruct (last_data s) as [d|] eqn:Hd; cbn.
  - destruct (dict_truthy d) eqn:Ht; cbn.
    + reflexivity.
    + now rewrite Hd, Ht.
  - now rewrite Hd.
Qed.

(** ** Start and stop *)

Lemma pending_payload s i m u :
  pending s i m u -> last_data s = Some m.
Proof. now intros (_ & H & _). Qed.

(** Unfolds the public methods and splits on every test they make. *)
Ltac split_calls :=
  unfold add_yukacone_message, _add_message_internal, _periodic_flush_round,
    flush_now, start, stop, _flush_locked;
  repeat match goal with
         | |- context [match ?x with _ => _ end] =>
             lazymatch x with
             | context [match _ with _ => _ end] => fail
             | _ => destruct x
             end
         end;
  cbn.

Lemma run_app_state (cs1 cs2 : list call) :
  forall s, fst (run (cs1 ++ cs2) s) = fst (run cs2 (fst (run cs1 s))).
Proof.
  induction cs1 as [|c cs1 IH]; intros s; [reflexivity|].
  cbn [app]. rewrite !run_cons. cbn [fst]. apply IH.
Qed.

Lemma step_thread (c : call) (s : t) :
  not_start c -> _thread (fst (step c s)) = _thread s.
Proof.
  destruct c as [data now env|now env|env| |env]; cbn [step not_start];
    intros H; try contradiction; split_calls; reflexivity.
Qed.

Lemma run_thread (cs : list call) :
  forall s, Forall not_start cs -> _thread (fst (run cs s)) = _thread s.
Proof.
  induction cs as [|c cs IH]; intros s Hall; [reflexivity|].
  inversion Hall as [|? ? Hc Hcs]; subst.
  rewrite run_cons. cbn [fst]. rewrite IH by exact Hcs.
  now apply step_thread.
Qed.

Lemma step_started (c : call) (s : t) :
  _thread s = true -> _thread (fst (step c s)) = true.
Proof.
  intros H. destruct c as [data now env|now env|env| |env];
    try (rewrite step_thread; [exact H|exact I]).
  cbn [step fst]. unfold start. now rewrite H.
Qed.

Lemma run_started (cs : list call) :
  forall s, _thread s = true -> _thread (fst (run cs s)) = true.
Proof.
  induction cs as [|c cs IH]; intros s H; [exact H|].
  rewrite run_cons. cbn [fst]. apply IH. now apply step_started.
Qed.

Lemma step_stopped (c : call) (s : t) :
  _thread s = true -> _stop s = true -> _stop (fst (step c s)) = true.
Proof.
  intros Ht Hs.
  destruct c as [data now env|now env|env| |env]; cbn [step].
  - split_calls; assumption.
  - split_calls; assumption.
  - split_calls; assumption.
  - unfold start. now rewrite Ht.
  - unfold stop. rewrite Ht. cbn [negb]. unfold _flush_locked.
    cbn [last_data set_thread].
    destruct (last_data s) as [d|]; [|reflexivity].
    destruct (negb (dict_truthy d)); reflexivity.
Qed.

Lemma run_stopped (cs : list call) :
  forall s, _thread s = true -> _stop s = true -> _stop (fst (run cs s)) = true.
Proof.
  induction cs as [|c cs IH]; intros s Ht Hs; [exact Hs|].
  rewrite run_cons. cbn [fst]. apply IH.
  - now apply step_started.
  - now apply step_stopped.
Qed.

(** X3.  On a logger that was constructed and never started, [stop()] does
    nothing whatever was called before: it returns at once, finalizes
    nothing, and a message that is pending stays pending. *)
Theorem stop_without_start_is_inert (stable interval : Q) (callback : bool)
    (cs : list call) (env : flush_env) :
  Forall not_start cs ->
  stop env (fst (run cs (__init__ stable interval callback)))
  = (fst (run cs (__init__ stable interval callback)), []).
Proof.
  intros Hall. unfold stop.
  now rewrite (run_thread cs _ Hall).
Qed.

Lemma stop_without_start_is_inert_witness :
  stop Samples.env0
    (fst (run [Add (Samples.hello "a" "Hello") 1 Samples.env0]
            (__init__ 10 1 false)))
  = (fst (run [Add (Samples.hello "a" "Hello") 1 Samples.env0]
            (__init__ 10 1 false)), [])
  /\ exists u,
       pending
         (fst (stop Samples.env0
                 (fst (run [Add (Samples.hello "a" "Hello") 1 Samples.env0]
                         (__init__ 10 1 false)))))
         "a" (Samples.hello_msg "a" "Hello") u.
Proof.
  split.
  - apply (stop_without_start_is_inert 10 1 false
             [Add (Samples.hello "a" "Hello") 1 Samples.env0] Samples.env0).
    repeat constructor.
  - exists 1. repeat split.
Defined.

(** X4.  Once [start()] has been called, [stop()] finalizes whatever is
    pending, whatever was called before and after the start: it emits the
    pending payload (and nothing when none is pending) and leaves no
    pending message, so shutdown loses no record. *)
Theorem stop_after_start_flushes_pending (stable interval : Q)
    (callback : bool) (cs1 cs2 : list call) (env : flush_env) :
  map payload
    (snd (stop env
            (fst (run (cs1 ++ Start :: cs2)
                    (__init__ stable interval callback)))))
  = match last_data (fst (run (cs1 ++ Start :: cs2)
                            (__init__ stable interval callback))) with
    | Some m => [m]
    | None => []
    end
  /\ no_pending
       (fst (stop env
               (fst (run (cs1 ++ Start :: cs2)
                       (__init__ stable interval callback))))).
Proof.
  set (s := fst (run (cs1 ++ Start :: cs2) (__init__ stable interval callback))).
  assert (Hth : _thread s = true).
  { subst s. rewrite run_app_state, run_cons. cbn [fst step].
    apply run_started. unfold start.
    destruct (_thread (fst (run cs1 _))) eqn:E; [exact E|reflexivity]. }
  assert (Hco : coherent s) by (apply run_coherent, init_coherent).
  unfold stop. rewrite Hth. cbn [negb].
  destruct Hco as [Hn | (i & m & u & Hp)].
  - rewrite (flush_no_pending (set_thread s true true) env) by exact Hn.
    cbn [fst snd map]. pose proof Hn as (_ & Hd & _). rewrite Hd.
    split; [reflexivity|exact Hn].
  - rewrite (flush_pending (set_thread s true true) i m u env) by exact Hp.
    cbn [fst snd map payload]. rewrite (pending_payload _ _ _ _ Hp).
    split; [reflexivity|apply set_pending_none].
Qed.

(** X5.  A logger that has been started and then stopped stays stopped:
    [_stop] remains set through every later call, [start()] included, so
    the periodic check cannot be started again on the same object. *)
Theorem stopped_logger_stays_stopped (stable interval : Q) (callback : bool)
    (cs1 cs2 cs3 : list call) (env : flush_env) :
  _stop (fst (run (cs1 ++ Start :: cs2 ++ Stop env :: cs3)
                (__init__ stable interval callback))) = true
  /\ start (fst (run (cs1 ++ Start :: cs2 ++ Stop env :: cs3)
                   (__init__ stable interval callback)))
     = fst (run (cs1 ++ Start :: cs2 ++ Stop env :: cs3)
              (__init__ stable interval callback)).
Proof.
  set (s0 := fst (run cs1 (__init__ stable interval callback))).
  assert (H1 : _thread (fst (run cs2 (start s0))) = true).
  { apply run_started. unfold start.
    destruct (_thread s0) eqn:E; [exact E|reflexivity]. }
  set (s2 := fst (run cs2 (start s0))) in *.
  assert (Heq : fst (run (cs1 ++ Start :: cs2 ++ Stop env :: cs3)
                       (__init__ stable interval callback))
                = fst (run cs3 (fst (stop env s2)))).
  { rewrite run_app_state, run_cons. cbn [fst step]. fold s0.
    rewrite run_app_state, run_cons. cbn [fst step]. reflexivity. }
  rewrite Heq.
  assert (Hth : _thread (fst (stop env s2)) = true)
    by (apply (step_started (Stop env)); exact H1).
  assert (Hst : _stop (fst (stop env s2)) = true).
  { unfold stop. rewrite H1. cbn [negb]. unfold _flush_locked.
    cbn [last_data set_thread].
    destruct (last_data s2) as [d|]; [|reflexivity].
    destruct (negb (dict_truthy d)); reflexivity. }
  split.
  - now apply run_stopped.
  - unfold start. now rewrite (run_started cs3 _ Hth).
Qed.

(** ** What reaches the log *)

Lemma subsequence_refl {A : Type} (l : list A) : subsequence l l.
Proof. induction l; constructor; assumption. Qed.

Lemma subsequence_skip_front {A : Type} (pre l1 l2 : list A) :
  subsequence l1 l2 -> subsequence l1 (pre ++ l2).
Proof. intros H. induction pre; cbn; [exact H|now constructor]. Qed.

Lemma forwarded_payloads_cons (c : call) (cs : list call) :
  exists new, forwarded_payloads (c :: cs) = new ++ forwarded_payloads cs
    /\ forall data now env m,
         c = Add data now env ->
         _convert_to_internal_format data = Some m -> new = [m].
Proof.
  destruct c as [data now env|now env|env| |env]; cbn [forwarded_payloads];
    try (exists []; split; [reflexivity|discriminate]).
  destruct (_convert_to_internal_format data) as [m|] eqn:Hconv.
  - exists [m]. split; [reflexivity|].
    intros d n e m' H Hd. injection H as -> -> ->. congruence.
  - exists []. split; [reflexivity|].
    intros d n e m' H Hd. injection H as -> -> ->. congruence.
Qed.

Lemma finalized_subsequence_from (cs : list call) :
  forall s,
    coherent s ->
    subsequence (map payload (snd (run cs s)))
      (match last_data s with Some m => [m] | None => [] end
       ++ forwarded_payloads cs).
Proof.
  induction cs as [|c cs IH]; intros s Hs.
  - cbn. destruct (last_data s); repeat constructor.
  - rewrite run_cons. cbn [snd]. rewrite map_app.
    pose proof (step_effect c s Hs) as He.
    pose proof (IH _ (effect_coherent _ _ _ _ Hs He)) as Hrest.
    destruct (forwarded_payloads_cons c cs) as (new & -> & Hnew).
    destruct He as [Hout Hf | i m u Hp Hout Hn
                   | data now env i m Hc Hconv _ Hbefore Hout Hp
                   | data now env i j m m0 u Hc Hconv _ _ Hp0 Hout Hp].
    + rewrite Hout. cbn [map app].
      assert (Hd : last_data (fst (step c s)) = last_data s)
        by (unfold pending_fields in Hf; congruence).
      rewrite Hd in Hrest. clear - Hrest.
      destruct (last_data s) as [d|]; cbn [app] in *.
      * inversion Hrest; subst.
        -- apply sub_skip. now apply subsequence_skip_front.
        -- apply sub_take. now apply subsequence_skip_front.
      * now apply subsequence_skip_front.
    + rewrite Hout, (pending_payload _ _ _ _ Hp). cbn [app].
      destruct Hn as (_ & Hd & _). rewrite Hd in Hrest. cbn [app] in Hrest.
      apply sub_take. now apply subsequence_skip_front.
    + rewrite Hout, (Hnew _ _ _ _ Hc Hconv). cbn [map app].
      rewrite (pending_payload _ _ _ _ Hp) in Hrest. cbn [app] in Hrest.
      now apply subsequence_skip_front.
    + rewrite Hout, (Hnew _ _ _ _ Hc Hconv), (pending_payload _ _ _ _ Hp0).
      cbn [app]. rewrite (pending_payload _ _ _ _ Hp) in Hrest.
      cbn [app] in Hrest. now apply sub_take.
Qed.

(** X6.  Whatever is called on a constructed logger, the payloads it
    finalizes form a subsequence of the payloads of the forwarded records,
    in the order of arrival: the logger never writes a payload it was not
    given, never writes one record twice, and never reorders. *)
Theorem finalized_payloads_are_a_subsequence (stable interval : Q)
    (callback : bool) (cs : list call) :
  subsequence
    (map payload (snd (run cs (__init__ stable interval callback))))
    (forwarded_payloads cs).
Proof.
  apply (finalized_subsequence_from cs (__init__ stable interval callback)).
  apply init_coherent.
Qed.

(** ** Accepted records *)

(** X7.  A record with an id and at least two entries is always accepted:
    whatever the logger held, it becomes the pending message, its payload
    made of the id and of the language and text of the first two entries
    (the empty string for a missing key); further entries are ignored. *)
Theorem accepted_record_becomes_pending (s : t) (i : string)
    (e0 e1 : entry) (more : list entry) (now : Q) (env : flush_env) :
  pending
    (fst (add_yukacone_message (mkData (Some i) (Some (e0 :: e1 :: more)))
            now env s))
    i
    {| MsgID := Some i;
       Lang1 := Some (get_default (Lang e0) "");
       Text1 := Some (get_default (Text e0) "");
       Lang2 := Some (get_default (Lang e1) "");
       Text2 := Some (get_default (Text e1) "") |}
    now.
Proof.
  apply add_becomes_pending; reflexivity.
Qed.

End StabilizerBehaviour.

(* ===================================================================== *)
(** * Further properties of the session layer                             *)
(* ===================================================================== *)

Module SessionBehaviour.
Import Py YukaconeClient YukaconeClientInfo MediaKeyController.
Import SessionSpec SessionNotions SessionProofs.

(** ** Changing the profile *)

Lemma option_string_eqb_eq (a b : option string) :
  option_string_eqb a b = true -> a = b.
Proof.
  destruct a as [x|], b as [y|]; cbn; try discriminate; try reflexivity.
  intros H. apply String.eqb_eq in H. now subst.
Qed.

Lemma no_other_error_frame w w' :
  frame w w' -> no_other_error (network w) -> no_other_error (network w').
Proof. intros Hfr H. now rewrite (frame_network _ _ Hfr). Qed.

(** A profile change to a profile of the list, when no exception reaches
    [set_translation_profile]: its result, the state and the events. *)
Lemma profile_change_result (index : Z) (p : Profile) (w : world) :
  (0 <= index)%Z ->
  nth_error (translation_profiles (client w)) (Z.to_nat index) = Some p ->
  no_other_error (network w) ->
  exists w',
    set_translation_profile index w = (Return true, w')
    /\ frame w w'
    /\ current_profile_index (client w') = index
    /\ last_recognition_language (client w') = recognition_language p
    /\ is_muted (client w') = is_muted (client w)
    /\ trace w' = trace w ++ profile_change_events (client w) p.
Proof.
  intros Hpos Hnth Hnet.
  assert (Hlt : (index < Z.of_nat (length (translation_profiles (client w))))%Z).
  { assert (Z.to_nat index < length (translation_profiles (client w)))%nat
      by (apply nth_error_Some; congruence).
    lia. }
  unfold set_translation_profile, profile_change_events, client_notification,
    translation_query.
  py_unfold. cbn.
  apply Z.ltb_ge in Hpos. apply Z.leb_gt in Hlt. rewrite Hpos, Hlt. cbn.
  rewrite Hnth. cbn.
  destruct (option_string_eqb (recognition_language p)
              (last_recognition_language (client w))) eqn:Hlang; cbn;
    destruct (network w (requests_sent w)) eqn:Hnet1; cbn;
    try contradict_no_other_error;
    try (destruct (network w (S (requests_sent w))) eqn:Hnet2; cbn;
         try contradict_no_other_error);
    destruct (YukaconeClient.on_status_change (client w)); cbn;
    eexists; (split; [reflexivity|]); cbn;
    (split; [frame_solve|]);
    repeat split; try reflexivity;
    try (symmetry; now apply option_string_eqb_eq);
    try (repeat rewrite <- app_assoc; reflexivity).
Qed.

(** X8.  An index outside [0 .. len(profiles) - 1] is rejected before
    anything is done: [set_translation_profile] returns [False], sends no
    request, calls no callback and leaves the client as it was. *)
Theorem rejected_index_changes_nothing (index : Z) (w : world) :
  (index < 0 \/ Z.of_nat (length (translation_profiles (client w))) <= index)%Z ->
  set_translation_profile index w = (Return false, w).
Proof.
  intros H. unfold set_translation_profile, bind, get_self, ret.
  destruct (Z.ltb_spec index 0); [reflexivity|].
  destruct (Z.leb_spec (Z.of_nat (length (translation_profiles (client w))))
              index); [reflexivity|lia].
Qed.

Lemma rejected_index_changes_nothing_witness :
  set_translation_profile 2
    (Samples.fresh_world [Samples.ja_en; Samples.ja_zh] (fun _ => HttpOk))
  = (Return false,
     Samples.fresh_world [Samples.ja_en; Samples.ja_zh] (fun _ => HttpOk)).
Proof.
  apply (rejected_index_changes_nothing 2
           (Samples.fresh_world [Samples.ja_en; Samples.ja_zh]
              (fun _ => HttpOk))).
  right. cbn. lia.
Defined.

(** X9.  The recognition-language call is sent only when the language
    changes: after a profile change to [p1], a change to a profile [p2]
    with the same recognition language sends the translation-parameter
    call alone, with no recognition-language call and no settle delay. *)
Theorem same_language_sends_no_recognition_call (i1 i2 : nat)
    (p1 p2 : Profile) (w : world) :
  nth_error (translation_profiles (client w)) i1 = Some p1 ->
  nth_error (translation_profiles (client w)) i2 = Some p2 ->
  recognition_language p1 = recognition_language p2 ->
  no_other_error (network w) ->
  trace (exec (set_translation_profile (Z.of_nat i2))
           (exec (set_translation_profile (Z.of_nat i1)) w))
  = trace (exec (set_translation_profile (Z.of_nat i1)) w)
    ++ [HttpGet "/setTranslationParam" (translation_query p2)]
    ++ client_notification (client w).
Proof.
  intros H1 H2 Hlang Hnet.
  destruct (profile_change_result (Z.of_nat i1) p1 w)
    as (w1 & Heq1 & Hfr1 & _ & Hl1 & _ & _);
    [lia|now rewrite Nat2Z.id|exact Hnet|].
  unfold exec at 2 3. rewrite Heq1. cbn [snd].
  destruct (profile_change_result (Z.of_nat i2) p2 w1)
    as (w2 & Heq2 & _ & _ & _ & _ & Ht2).
  - lia.
  - now rewrite Nat2Z.id, (frame_profiles _ _ Hfr1).
  - now apply (no_other_error_frame w).
  - unfold exec. rewrite Heq2. cbn [snd]. rewrite Ht2.
    unfold profile_change_events, client_notification.
    rewrite Hl1, Hlang, (frame_callback _ _ Hfr1).
    replace (option_string_eqb (recognition_language p2)
               (recognition_language p2)) with true; [reflexivity|].
    destruct (recognition_language p2); cbn;
      [now rewrite String.eqb_refl|reflexivity].
Qed.

Lemma same_language_sends_no_recognition_call_witness :
  trace (exec (set_translation_profile (Z.of_nat 1))
           (exec (set_translation_profile (Z.of_nat 0))
              (Samples.fresh_world [Samples.ja_en; Samples.ja_zh]
                 (fun _ => HttpOk))))
  = trace (exec (set_translation_profile (Z.of_nat 0))
             (Samples.fresh_world [Samples.ja_en; Samples.ja_zh]
                (fun _ => HttpOk)))
    ++ [HttpGet "/setTranslationParam" (translation_query Samples.ja_zh)]
    ++ client_notification
         (client (Samples.fresh_world [Samples.ja_en; Samples.ja_zh]
                    (fun _ => HttpOk))).
Proof.
  apply (same_language_sends_no_recognition_call 0 1 Samples.ja_en
           Samples.ja_zh
           (Samples.fresh_world [Samples.ja_en; Samples.ja_zh]
              (fun _ => HttpOk))).
  - reflexivity.
  - reflexivity.
  - reflexivity.
  - intros n. discriminate.
Defined.

(** ** Muting *)

(** [set_mute] when no exception reaches it: it returns [True], the flag
    is the one asked for, and one request and the callback are its events. *)
Lemma set_mute_result (muted : bool) (w : world) :
  no_other_error (network w) ->
  exists w',
    set_mute muted w = (Return true, w')
    /\ frame w w'
    /\ is_muted (client w') = muted
    /\ current_profile_index (client w') = current_profile_index (client w)
    /\ trace w' =
         trace w
         ++ [HttpGet (if muted then "/mute-on" else "/mute-off") []]
         ++ client_notification (client w).
Proof.
  intros Hnet. unfold set_mute, client_notification. py_unfold. cbn.
  destruct (network w (requests_sent w)) eqn:Hnet1; cbn;
    try contradict_no_other_error;
    destruct (YukaconeClient.on_status_change (client w)); cbn;
    eexists; (split; [reflexivity|]); cbn;
    (split; [frame_solve|]);
    repeat split; try reflexivity;
    try (repeat rewrite <- app_assoc; reflexivity).
Qed.

Lemma toggle_mute_eq (w : world) :
  toggle_mute w = set_mute (negb (is_muted (client w))) w.
Proof. reflexivity. Qed.

(** X10.  As long as no exception outside the requests hierarchy occurs,
    [toggle_mute] flips the mute flag, and two toggles in a row give back
    the flag they started from. *)
Theorem toggle_mute_twice_restores_flag (w : world) :
  no_other_error (network w) ->
  is_muted (client (exec toggle_mute w)) = negb (is_muted (client w))
  /\ is_muted (client (exec toggle_mute (exec toggle_mute w)))
     = is_muted (client w).
Proof.
  intros Hnet.
  destruct (set_mute_result (negb (is_muted (client w))) w Hnet)
    as (w1 & Heq1 & Hfr1 & Hm1 & _).
  unfold exec at 1 3. rewrite !toggle_mute_eq, Heq1. cbn [snd].
  split; [exact Hm1|].
  destruct (set_mute_result (negb (is_muted (client w1))) w1)
    as (w2 & Heq2 & _ & Hm2 & _).
  - now apply (no_other_error_frame w).
  - unfold exec. rewrite toggle_mute_eq, Heq2. cbn [snd].
    rewrite Hm2, Hm1. apply negb_involutive.
Qed.

Lemma toggle_mute_twice_restores_flag_witness :
  is_muted
    (client (exec toggle_mute
               (Samples.fresh_world [Samples.ja_en] (fun _ => HttpOk))))
  = negb (is_muted
            (client (Samples.fresh_world [Samples.ja_en] (fun _ => HttpOk))))
  /\ is_muted
       (client (exec toggle_mute
                  (exec toggle_mute
                     (Samples.fresh_world [Samples.ja_en]
                        (fun _ => HttpOk)))))
     = is_muted
         (client (Samples.fresh_world [Samples.ja_en] (fun _ => HttpOk))).
Proof.
  apply (toggle_mute_twice_restores_flag
           (Samples.fresh_world [Samples.ja_en] (fun _ => HttpOk))).
  intros n. discriminate.
Defined.

(** ** Next and previous *)

Lemma profile_step_result (w : world) (index : Z) :
  no_other_error (network w) ->
  (0 <= index < Z.of_nat (length (translation_profiles (client w))))%Z ->
  exists w',
    set_translation_profile index w = (Return true, w')
    /\ frame w w'
    /\ current_profile_index (client w') = index.
Proof.
  intros Hnet Hin.
  destruct (set_translation_profile_spec index w)
    as (r & w' & Heq & Hfr & _ & Hidx & _ & Hsucc).
  rewrite (Hsucc Hnet Hin) in *. eauto.
Qed.

(** X11.  With the index in range and no exception outside the requests
    hierarchy, [previous_profile] undoes [next_profile] and [next_profile]
    undoes [previous_profile]: the index comes back to where it was, also
    across the wrap-around at both ends. *)
Theorem next_and_previous_cancel (w : world) :
  index_in_range (client w) ->
  no_other_error (network w) ->
  current_profile_index (client (exec previous_profile (exec next_profile w)))
  = current_profile_index (client w)
  /\ current_profile_index
       (client (exec next_profile (exec previous_profile w)))
     = current_profile_index (client w).
Proof.
  intros Hin Hnet.
  pose proof (in_range_nonempty _ Hin) as Hne.
  pose proof (profiles_nonempty_length _ Hne) as Hpos.
  unfold index_in_range in Hin.
  set (N := Z.of_nat (length (translation_profiles (client w)))) in *.
  set (i := current_profile_index (client w)) in *.
  assert (Hback : forall w1 k,
    frame w w1 -> (0 <= k < N)%Z ->
    exists w2, set_translation_profile k w1 = (Return true, w2)
               /\ current_profile_index (client w2) = k).
  { intros w1 k Hfr Hk.
    destruct (profile_step_result w1 k) as (w2 & Heq & _ & Hidx).
    - now apply (no_other_error_frame w).
    - rewrite (frame_profiles _ _ Hfr). exact Hk.
    - eauto. }
  split.
  - destruct (profile_step_result w ((i + 1) mod N)%Z)
      as (w1 & Heq1 & Hfr1 & Hidx1);
      [exact Hnet|now apply Z.mod_pos_bound|].
    unfold exec at 2. rewrite (next_profile_eq w Hne). fold N i.
    rewrite Heq1. cbn [snd].
    assert (Hne1 : translation_profiles (client w1) <> [])
      by (rewrite (frame_profiles _ _ Hfr1); exact Hne).
    unfold exec. rewrite (previous_profile_eq w1 Hne1).
    rewrite (frame_profiles _ _ Hfr1), Hidx1. fold N.
    destruct (Hback w1 ((((i + 1) mod N) - 1) mod N)%Z Hfr1)
      as (w2 & Heq2 & Hidx2); [now apply Z.mod_pos_bound|].
    rewrite Heq2. cbn [snd]. rewrite Hidx2.
    rewrite Zminus_mod_idemp_l. replace (i + 1 - 1)%Z with i by lia.
    now apply Z.mod_small.
  - destruct (profile_step_result w ((i - 1) mod N)%Z)
      as (w1 & Heq1 & Hfr1 & Hidx1);
      [exact Hnet|now apply Z.mod_pos_bound|].
    unfold exec at 2. rewrite (previous_profile_eq w Hne). fold N i.
    rewrite Heq1. cbn [snd].
    assert (Hne1 : translation_profiles (client w1) <> [])
      by (rewrite (frame_profiles _ _ Hfr1); exact Hne).
    unfold exec. rewrite (next_profile_eq w1 Hne1).
    rewrite (frame_profiles _ _ Hfr1), Hidx1. fold N.
    destruct (Hback w1 ((((i - 1) mod N) + 1) mod N)%Z Hfr1)
      as (w2 & Heq2 & Hidx2); [now apply Z.mod_pos_bound|].
    rewrite Heq2. cbn [snd]. rewrite Hidx2.
    rewrite Zplus_mod_idemp_l. replace (i - 1 + 1)%Z with i by lia.
    now apply Z.mod_small.
Qed.

Lemma next_and_previous_cancel_witness :
  current_profile_index
    (client (exec previous_profile
               (exec next_profile
                  (Samples.fresh_world [Samples.ja_en; Samples.ja_zh]
                     (fun _ => HttpRequestError)))))
  = current_profile_index
      (client (Samples.fresh_world [Samples.ja_en; Samples.ja_zh]
                 (fun _ => HttpRequestError)))
  /\ current_profile_index
       (client (exec next_profile
                  (exec previous_profile
                     (Samples.fresh_world [Samples.ja_en; Samples.ja_zh]
                        (fun _ => HttpRequestError)))))
     = current_profile_index
         (client (Samples.fresh_world [Samples.ja_en; Samples.ja_zh]
                    (fun _ => HttpRequestError))).
Proof.
  apply (next_and_previous_cancel
           (Samples.fresh_world [Samples.ja_en; Samples.ja_zh]
              (fun _ => HttpRequestError))).
  - unfold index_in_range. cbn. lia.
  - intros n. discriminate.
Defined.

(** ** Profile and mute flag are independent *)

(** X12.  Whatever the control endpoint answers, an operation on the
    profile never touches the mute flag, and an operation on the mute flag
    never touches the profile index nor the recorded recognition language;
    no operation changes the list of profiles. *)
Theorem profile_and_mute_are_independent (o : operation) (w : world) :
  translation_profiles (client (exec (perform o) w))
  = translation_profiles (client w)
  /\ if is_profile_operation o
     then is_muted (client (exec (perform o) w)) = is_muted (client w)
     else current_profile_index (client (exec (perform o) w))
          = current_profile_index (client w)
          /\ last_recognition_language (client (exec (perform o) w))
             = last_recognition_language (client w).
Proof.
  assert (Hset : forall index,
    translation_profiles (client (exec (set_translation_profile index) w))
    = translation_profiles (client w)
    /\ is_muted (client (exec (set_translation_profile index) w))
       = is_muted (client w)).
  { intros index.
    destruct (set_translation_profile_spec index w)
      as (r & w' & Heq & Hfr & Hm & _).
    unfold exec. rewrite Heq. cbn [snd].
    split; [apply (frame_profiles _ _ Hfr)|exact Hm]. }
  assert (Hmute : forall muted,
    translation_profiles (client (exec (set_mute muted) w))
    = translation_profiles (client w)
    /\ current_profile_index (client (exec (set_mute muted) w))
       = current_profile_index (client w)
    /\ last_recognition_language (client (exec (set_mute muted) w))
       = last_recognition_language (client w)).
  { intros muted.
    destruct (set_mute_spec muted w) as (r & w' & Heq & Hfr & Hi & Hl & _).
    unfold exec. rewrite Heq. cbn [snd].
    split; [apply (frame_profiles _ _ Hfr)|now split]. }
  assert (Hcase : translation_profiles (client w) = []
                  \/ translation_profiles (client w) <> [])
    by (destruct (translation_profiles (client w)); [now left|now right]).
  destruct o as [index| | |muted|]; cbn [perform is_profile_operation].
  - apply Hset.
  - destruct Hcase as [E | E].
    + unfold exec. destruct (next_profile_no_profiles w E) as [-> _].
      now split.
    + unfold exec at 1 2. rewrite (next_profile_eq w E). apply Hset.
  - destruct Hcase as [E | E].
    + unfold exec. destruct (next_profile_no_profiles w E) as [_ ->].
      now split.
    + unfold exec at 1 2. rewrite (previous_profile_eq w E). apply Hset.
  - apply Hmute.
  - unfold exec at 1 2 3. rewrite toggle_mute_eq. apply Hmute.
Qed.

(** ** Key presses *)

Lemma send_status_and_notify_result (self : MediaKeyController.t) (w : world) :
  send_status_and_notify self w =
    (Return tt,
     {| client := client w;
        network := network w;
        requests_sent := requests_sent w;
        trace :=
          trace w
          ++ status_events self (current_profile_of (client w))
               (is_muted (client w)) |}).
Proof.
  unfold send_status_and_notify, get_current_profile, status_events,
    current_profile_of.
  py_unfold.
  destruct ((0 <=? current_profile_index (client w))%Z
            && (current_profile_index (client w)
                <? Z.of_nat (length (translation_profiles (client w))))%Z);
    cbn;
    [destruct (nth_error (translation_profiles (client w))
                 (Z.to_nat (current_profile_index (client w)))) as [p|];
     cbn; [destruct (profile_truthy p); cbn|]|];
    destruct (MediaKeyController.on_status_change self); cbn;
    rewrite ?app_nil_r, <- ?app_assoc; try reflexivity;
    destruct w; reflexivity.
Qed.

(** A key press makes the first call of the key and, when that returned
    [True], the second call and the status report; it never raises. *)
Lemma key_press_unfold (self : MediaKeyController.t) (key : Key) (w : world) :
  _on_key_press self key w =
    (Return tt,
     match first_call key w with
     | (Return true, w1) =>
         exec (send_status_and_notify self) (exec (second_call key) w1)
     | (_, w1) => w1
     end).
Proof.
  unfold _on_key_press, _handle_play_pause, _handle_next, _handle_previous.
  unfold try_except, bind, when.
  destruct key; cbn [first_call second_call]; try reflexivity;
    match goal with
    | |- context [?c w] => destruct (c w) as [[[|]|e] w1]
    end; cbn; try reflexivity.
  - now rewrite (proj1 (send_status_and_notify_spec self w1)).
  - destruct (second_call_returns media_next w1) as (r & Hr & _).
    cbn [second_call] in Hr. rewrite Hr.
    now rewrite (proj1 (send_status_and_notify_spec self _)).
  - destruct (second_call_returns media_previous w1) as (r & Hr & _).
    cbn [second_call] in Hr. rewrite Hr.
    now rewrite (proj1 (send_status_and_notify_spec self _)).
Qed.

Lemma current_profile_in_range (c : YukaconeClient.t) :
  index_in_range c ->
  exists p,
    current_profile_of c = Some p
    /\ nth_error (translation_profiles c) (Z.to_nat (current_profile_index c))
       = Some p.
Proof.
  unfold index_in_range, current_profile_of. intros [Hlo Hhi].
  apply Z.leb_le in Hlo as Hlo'. apply Z.ltb_lt in Hhi as Hhi'.
  rewrite Hlo', Hhi'. cbn.
  destruct (nth_error (translation_profiles c)
              (Z.to_nat (current_profile_index c))) as [p|] eqn:E; [eauto|].
  apply nth_error_None in E. lia.
Qed.

(** X13.  On a client whose control endpoint raises nothing outside the
    requests hierarchy, the play/pause key flips the mute flag with one
    mute request, then reports the current profile (when there is one) with
    the new flag to XSOverlay and calls the controller's callback; the
    profile index stays. *)
Theorem play_pause_key_toggles_and_reports (self : MediaKeyController.t)
    (w : world) :
  no_other_error (network w) ->
  is_muted (client (exec (_on_key_press self media_play_pause) w))
  = negb (is_muted (client w))
  /\ current_profile_index
       (client (exec (_on_key_press self media_play_pause) w))
     = current_profile_index (client w)
  /\ trace (exec (_on_key_press self media_play_pause) w)
     = trace w
       ++ [HttpGet (if is_muted (client w) then "/mute-off" else "/mute-on")
             []]
       ++ client_notification (client w)
       ++ status_events self (current_profile_of (client w))
            (negb (is_muted (client w))).
Proof.
  intros Hnet.
  destruct (set_mute_result (negb (is_muted (client w))) w Hnet)
    as (w1 & Heq & Hfr & Hm & Hi & Ht).
  unfold exec at 1 2 3. rewrite key_press_unfold. cbn [first_call snd].
  rewrite toggle_mute_eq, Heq. cbn [second_call ret exec snd].
  unfold exec. rewrite send_status_and_notify_result. cbn [snd client trace].
  split; [exact Hm|]. split; [exact Hi|].
  rewrite Ht, Hm, <- !app_assoc.
  replace (current_profile_of (client w1)) with (current_profile_of (client w)).
  - now destruct (is_muted (client w)).
  - unfold current_profile_of. now rewrite Hi, (frame_profiles _ _ Hfr).
Qed.

Lemma play_pause_key_toggles_and_reports_witness :
  is_muted
    (client (exec (_on_key_press Samples.controller media_play_pause)
               (Samples.fresh_world [Samples.ja_en] (fun _ => HttpOk))))
  = negb (is_muted
            (client (Samples.fresh_world [Samples.ja_en] (fun _ => HttpOk))))
  /\ current_profile_index
       (client (exec (_on_key_press Samples.controller media_play_pause)
                  (Samples.fresh_world [Samples.ja_en] (fun _ => HttpOk))))
     = current_profile_index
         (client (Samples.fresh_world [Samples.ja_en] (fun _ => HttpOk)))
  /\ trace (exec (_on_key_press Samples.controller media_play_pause)
              (Samples.fresh_world [Samples.ja_en] (fun _ => HttpOk)))
     = trace (Samples.fresh_world [Samples.ja_en] (fun _ => HttpOk))
       ++ [HttpGet
             (if is_muted
                   (client (Samples.fresh_world [Samples.ja_en]
                              (fun _ => HttpOk)))
              then "/mute-off" else "/mute-on") []]
       ++ client_notification
            (client (Samples.fresh_world [Samples.ja_en] (fun _ => HttpOk)))
       ++ status_events Samples.controller
            (current_profile_of
               (client (Samples.fresh_world [Samples.ja_en]
                          (fun _ => HttpOk))))
            (negb (is_muted
                     (client (Samples.fresh_world [Samples.ja_en]
                                (fun _ => HttpOk))))).
Proof.
  apply (play_pause_key_toggles_and_reports Samples.controller
           (Samples.fresh_world [Samples.ja_en] (fun _ => HttpOk))).
  intros n. discriminate.
Defined.

(** X14.  On a client whose index [i] is in range and whose control
    endpoint raises nothing outside the requests hierarchy, the next key
    (the previous key) moves to the profile at [(i + 1) mod N]
    ([(i - 1) mod N]), unmutes, and then reports exactly that profile as
    not muted to XSOverlay; the requests go out in the order profile change,
    [/mute-off]. *)
Theorem next_key_switches_unmutes_and_reports (self : MediaKeyController.t)
    (key : Key) (w : world) :
  key = media_next \/ key = media_previous ->
  index_in_range (client w) ->
  no_other_error (network w) ->
  exists p,
    nth_error (translation_profiles (client w))
      (Z.to_nat ((current_profile_index (client w) + index_step key)
                   mod Z.of_nat (length (translation_profiles (client w)))))
    = Some p
    /\ current_profile_index (client (exec (_on_key_press self key) w))
       = ((current_profile_index (client w) + index_step key)
            mod Z.of_nat (length (translation_profiles (client w))))%Z
    /\ is_muted (client (exec (_on_key_press self key) w)) = false
    /\ trace (exec (_on_key_press self key) w)
       = trace w
         ++ profile_change_events (client w) p
         ++ [HttpGet "/mute-off" []]
         ++ client_notification (client w)
         ++ status_events self (Some p) false.
Proof.
  intros Hkey Hin Hnet.
  pose proof (in_range_nonempty _ Hin) as Hne.
  pose proof (profiles_nonempty_length _ Hne) as Hpos.
  set (N := Z.of_nat (length (translation_profiles (client w)))) in *.
  set (j := ((current_profile_index (client w) + index_step key) mod N)%Z).
  assert (Hj : (0 <= j < N)%Z) by (now apply Z.mod_pos_bound).
  assert (Hfirst : first_call key w = set_translation_profile j w).
  { destruct Hkey as [-> | ->]; cbn [first_call index_step] in *.
    - apply (next_profile_eq w Hne).
    - rewrite (previous_profile_eq w Hne). reflexivity. }
  assert (Hsecond : second_call key = set_mute false)
    by (destruct Hkey as [-> | ->]; reflexivity).
  destruct (nth_error (translation_profiles (client w)) (Z.to_nat j))
    as [p|] eqn:Hnth; [|apply nth_error_None in Hnth; lia].
  exists p. split; [reflexivity|].
  destruct (profile_change_result j p w) as (w1 & Heq1 & Hfr1 & Hi1 & _ & _ & Ht1);
    [lia|exact Hnth|exact Hnet|].
  destruct (set_mute_result false w1) as (w2 & Heq2 & Hfr2 & Hm2 & Hi2 & Ht2);
    [now apply (no_other_error_frame w)|].
  assert (Hw : exec (_on_key_press self key) w =
    {| client := client w2;
       network := network w2;
       requests_sent := requests_sent w2;
       trace :=
         trace w2
         ++ status_events self (current_profile_of (client w2))
              (is_muted (client w2)) |}).
  { unfold exec. rewrite key_press_unfold. cbn [snd].
    rewrite Hfirst, Heq1, Hsecond. unfold exec. rewrite Heq2. cbn [snd].
    now rewrite send_status_and_notify_result. }
  rewrite Hw. cbn [client trace].
  split; [now rewrite Hi2, Hi1|]. split; [exact Hm2|].
  assert (Hcur : current_profile_of (client w2) = Some p).
  { unfold current_profile_of.
    rewrite Hi2, Hi1, (frame_profiles _ _ Hfr2), (frame_profiles _ _ Hfr1).
    fold N. destruct Hj as [Hlo Hhi].
    apply Z.leb_le in Hlo. apply Z.ltb_lt in Hhi. rewrite Hlo, Hhi.
    exact Hnth. }
  rewrite Hcur, Hm2, Ht2, Ht1. unfold client_notification.
  rewrite (frame_callback _ _ Hfr1), <- !app_assoc. reflexivity.
Qed.

Lemma next_key_switches_unmutes_and_reports_witness :
  exists p,
    nth_error
      (translation_profiles
         (client (Samples.fresh_world [Samples.ja_en; Samples.en_ja]
                    (fun _ => HttpOk))))
      (Z.to_nat
         ((current_profile_index
             (client (Samples.fresh_world [Samples.ja_en; Samples.en_ja]
                        (fun _ => HttpOk)))
           + index_step media_previous)
            mod Z.of_nat
                  (length
                     (translation_profiles
                        (client (Samples.fresh_world
                                   [Samples.ja_en; Samples.en_ja]
                                   (fun _ => HttpOk)))))))
    = Some p
    /\ current_profile_index
         (client (exec (_on_key_press Samples.controller media_previous)
                    (Samples.fresh_world [Samples.ja_en; Samples.en_ja]
                       (fun _ => HttpOk))))
       = ((current_profile_index
             (client (Samples.fresh_world [Samples.ja_en; Samples.en_ja]
                        (fun _ => HttpOk)))
           + index_step media_previous)
            mod Z.of_nat
                  (length
                     (translation_profiles
                        (client (Samples.fresh_world
                                   [Samples.ja_en; Samples.en_ja]
                                   (fun _ => HttpOk))))))%Z
    /\ is_muted
         (client (exec (_on_key_press Samples.controller media_previous)
                    (Samples.fresh_world [Samples.ja_en; Samples.en_ja]
                       (fun _ => HttpOk)))) = false
    /\ trace (exec (_on_key_press Samples.controller media_previous)
                (Samples.fresh_world [Samples.ja_en; Samples.en_ja]
                   (fun _ => HttpOk)))
       = trace (Samples.fresh_world [Samples.ja_en; Samples.en_ja]
                  (fun _ => HttpOk))
         ++ profile_change_events
              (client (Samples.fresh_world [Samples.ja_en; Samples.en_ja]
                         (fun _ => HttpOk))) p
         ++ [HttpGet "/mute-off" []]
         ++ client_notification
              (client (Samples.fresh_world [Samples.ja_en; Samples.en_ja]
                         (fun _ => HttpOk)))
         ++ status_events Samples.controller (Some p) false.
Proof.
  apply (next_key_switches_unmutes_and_reports Samples.controller
           media_previous
           (Samples.fresh_world [Samples.ja_en; Samples.en_ja]
              (fun _ => HttpOk))).
  - now right.
  - unfold index_in_range. cbn. lia.
  - intros n. discriminate.
Defined.

(** ** The current profile is always there *)

Lemma key_press_in_range (self : MediaKeyController.t) (key : Key) (w : world) :
  index_in_range (client w) ->
  index_in_range (client (exec (_on_key_press self key) w)).
Proof.
  intros Hin. unfold exec at 1. rewrite key_press_unfold. cbn [snd].
  assert (Hfirst : index_in_range (client (snd (first_call key w)))).
  { destruct key; cbn [first_call].
    - apply (profile_index_stays_in_range ToggleMute w Hin).
    - apply (profile_index_stays_in_range NextProfile w Hin).
    - apply (profile_index_stays_in_range PreviousProfile w Hin).
    - exact Hin. }
  destruct (first_call key w) as [[[|]|e] w1]; cbn [snd] in Hfirst;
    try exact Hfirst.
  unfold exec at 1. rewrite send_status_and_notify_result. cbn [snd client].
  destruct key; cbn [second_call]; try exact Hfirst.
  - apply (profile_index_stays_in_range (SetMute false) w1 Hfirst).
  - apply (profile_index_stays_in_range (SetMute false) w1 Hfirst).
Qed.

Lemma act_all_in_range (acts : list action) :
  forall w, index_in_range (client w) -> index_in_range (client (act_all acts w)).
Proof.
  induction acts as [|a acts IH]; intros w Hin; [exact Hin|].
  cbn [act_all]. apply IH. destruct a as [o|self key]; cbn [act].
  - now apply profile_index_stays_in_range.
  - now apply key_press_in_range.
Qed.

Lemma falsy_profile_fields (p : Profile) :
  profile_truthy p = false -> name p = None /\ trans_param p = None.
Proof.
  unfold profile_truthy.
  destruct (name p), (recognition_language p), (trans_param p);
    try discriminate. now split.
Qed.

(** X15.  On a client that starts with its index in range, after any
    sequence of operations and key presses, whatever the control endpoint
    answered, [get_current_profile] still returns a profile of the list
    (never [None]), and [get_profile_name] and [get_translation_engine]
    return that profile's name and engine, with ["Unknown"] for a missing
    key. *)
Theorem current_profile_always_available (acts : list action) (w : world) :
  index_in_range (client w) ->
  exists p,
    In p (translation_profiles (client w))
    /\ get_current_profile (act_all acts w)
       = (Return (Some p), act_all acts w)
    /\ get_profile_name (act_all acts w)
       = (Return (get_default (name p) "Unknown"), act_all acts w)
    /\ get_translation_engine (act_all acts w)
       = (Return
            (get_default
               (engine (get_default (trans_param p)
                          (mkTransParam None None None)))
               "Unknown"),
          act_all acts w).
Proof.
  intros Hin.
  assert (Hprof : forall acts w,
    translation_profiles (client (act_all acts w))
    = translation_profiles (client w)).
  { clear. induction acts as [|a acts IH]; intros w; [reflexivity|].
    cbn [act_all]. rewrite IH. destruct a as [o|self key]; cbn [act].
    - destruct o as [index| | |muted|]; cbn [perform].
      + destruct (set_translation_profile_spec index w)
          as (r & w' & Heq & Hfr & _).
        unfold exec. rewrite Heq. apply (frame_profiles _ _ Hfr).
      + apply (frame_profiles _ _ (first_call_frame media_next w)).
      + apply (frame_profiles _ _ (first_call_frame media_previous w)).
      + destruct (set_mute_spec muted w) as (r & w' & Heq & Hfr & _).
        unfold exec. rewrite Heq. apply (frame_profiles _ _ Hfr).
      + apply (frame_profiles _ _ (first_call_frame media_play_pause w)).
    - unfold exec at 1. rewrite key_press_unfold. cbn [snd].
      pose proof (first_call_frame key w) as Hfirst.
      destruct (first_call key w) as [[[|]|e] w1]; cbn [snd] in Hfirst;
        try apply (frame_profiles _ _ Hfirst).
      unfold exec at 1. rewrite send_status_and_notify_result.
      cbn [snd client].
      destruct (second_call_returns key w1) as (r & _ & Hsecond).
      now rewrite (frame_profiles _ _ Hsecond), (frame_profiles _ _ Hfirst). }
  pose proof (act_all_in_range acts w Hin) as Hin'.
  destruct (current_profile_in_range _ Hin') as (p & Hcur & Hnth).
  exists p. split.
  { rewrite Hprof in Hnth. eapply nth_error_In, Hnth. }
  assert (Hget : get_current_profile (act_all acts w)
                 = (Return (Some p), act_all acts w)).
  { unfold get_current_profile, bind, get_self, ret.
    unfold current_profile_of in Hcur.
    destruct ((0 <=? current_profile_index (client (act_all acts w)))%Z
              && (current_profile_index (client (act_all acts w))
                  <? Z.of_nat
                       (length (translation_profiles
                                  (client (act_all acts w)))))%Z);
      [now rewrite Hcur|discriminate]. }
  split; [exact Hget|].
  unfold get_profile_name, get_translation_engine, bind. rewrite Hget.
  destruct (profile_truthy p) eqn:Ht; [now split|].
  destruct (falsy_profile_fields p Ht) as [-> ->]. now split.
Qed.

Lemma current_profile_always_available_witness :
  exists p,
    In p (translation_profiles
            (client (Samples.fresh_world [Samples.ja_en; Samples.ja_zh]
                       (fun _ => HttpOtherError))))
    /\ get_current_profile
         (act_all [KeyPress Samples.controller media_next;
                   Operation (SetProfile 7); Operation PreviousProfile]
            (Samples.fresh_world [Samples.ja_en; Samples.ja_zh]
               (fun _ => HttpOtherError)))
       = (Return (Some p),
          act_all [KeyPress Samples.controller media_next;
                   Operation (SetProfile 7); Operation PreviousProfile]
            (Samples.fresh_world [Samples.ja_en; Samples.ja_zh]
               (fun _ => HttpOtherError)))
    /\ get_profile_name
         (act_all [KeyPress Samples.controller media_next;
                   Operation (SetProfile 7); Operation PreviousProfile]
            (Samples.fresh_world [Samples.ja_en; Samples.ja_zh]
               (fun _ => HttpOtherError)))
       = (Return (get_default (name p) "Unknown"),
          act_all [KeyPress Samples.controller media_next;
                   Operation (SetProfile 7); Operation PreviousProfile]
            (Samples.fresh_world [Samples.ja_en; Samples.ja_zh]
               (fun _ => HttpOtherError)))
    /\ get_translation_engine
         (act_all [KeyPress Samples.controller media_next;
                   Operation (SetProfile 7); Operation PreviousProfile]
            (Samples.fresh_world [Samples.ja_en; Samples.ja_zh]
               (fun _ => HttpOtherError)))
       = (Return
            (get_default
               (engine (get_default (trans_param p)
                          (mkTransParam None None None)))
               "Unknown"),
          act_all [KeyPress Samples.controller media_next;
                   Operation (SetProfile 7); Operation PreviousProfile]
            (Samples.fresh_world [Samples.ja_en; Samples.ja_zh]
               (fun _ => HttpOtherError))).
Proof.
  apply (current_profile_always_available
           [KeyPress Samples.controller media_next;
            Operation (SetProfile 7); Operation PreviousProfile]
           (Samples.fresh_world [Samples.ja_en; Samples.ja_zh]
              (fun _ => HttpOtherError))).
  unfold index_in_range. cbn. lia.
Defined.

(** ** The reconnect loop *)

(** Closes a case of the loop in which nothing is slept. *)
Ltac no_delay :=
  exists []; split;
  [ rewrite ?delays_app; cbn [delays]; now rewrite ?app_nil_r
  | constructor ].

(** X16.  Whatever happens to the connection attempts (failures, opened
    connections, exceptions, disconnects, for any number of rounds and from
    any state), the reconnect loop never sleeps longer than
    [max_reconnect_delay]. *)
Theorem reconnect_delay_never_exceeds_maximum (script : list attempt)
    (w : world) :
  exists ds,
    delays (trace (exec (_ws_connect_loop script) w)) = delays (trace w) ++ ds
    /\ Forall (fun d => (d <= max_reconnect_delay (client w))%Q) ds.
Proof.
  revert w. induction script as [|a script IH]; intros w.
  - no_delay.
  - unfold exec. loop_unfold.
    destruct (_is_running (client w)) eqn:Hrun; loop_simpl; [|no_delay].
    destruct (result a); loop_simpl;
      destruct (disconnect_during_run a); loop_simpl;
      rewrite ?Hrun; loop_simpl; try no_delay;
      try change (max_float_exponent <? 0)%nat with false;
      match goal with
      | |- context [(max_float_exponent <? ?n)%nat] =>
          destruct (max_float_exponent <? n)%nat
      | _ => idtac
      end; loop_simpl; try no_delay;
      destruct (disconnect_during_sleep a); loop_simpl;
      match goal with
      | |- context [_ws_connect_loop script ?w2] =>
          destruct (IH w2) as (ds & Hd & Hall)
      end;
      unfold exec in Hd; rewrite Hd;
      cbn [trace client max_reconnect_delay set_reconnect_attempts
           set_is_running] in *;
      eexists (_ :: ds);
      (split;
       [ rewrite !delays_app; cbn [delays app]; rewrite <- !app_assoc;
         reflexivity
       | constructor; [apply Q.le_min_r|exact Hall] ]).
Qed.





Lemma loop_not_running (script : list attempt) (w : world) :
  _is_running (client w) = false ->
  _ws_connect_loop script w = (Return tt, w).
Proof.
  intros H. destruct script as [|a rest]; [reflexivity|].
  loop_unfold. now rewrite H.
Qed.

(** X18.  A [disconnect()] ends the loop: when it is called while a round
    runs or while the loop sleeps, no later round is started, whatever the
    script held for them; when it is called before the sleep, the loop
    leaves without sleeping at all. *)
Theorem disconnect_ends_the_loop (a : attempt) (rest : list attempt)
    (w : world) :
  disconnect_during_run a = true \/ disconnect_during_sleep a = true ->
  _ws_connect_loop (a :: rest) w = _ws_connect_loop [a] w
  /\ (disconnect_during_run a = true ->
      delays (trace (exec (_ws_connect_loop (a :: rest)) w))
      = delays (trace w)).
Proof.
  intros Hdis. unfold exec. loop_unfold.
  destruct (_is_running (client w)) eqn:Hrun; loop_simpl;
    [|split; reflexivity].
  destruct (result a); loop_simpl;
    destruct (disconnect_during_run a) eqn:Hd1; loop_simpl;
    rewrite ?Hrun; loop_simpl;
    try (split; [reflexivity|intros _; rewrite delays_app; cbn [delays];
                             now rewrite app_nil_r]);
    (destruct Hdis as [Hdis | Hdis]; [discriminate|]);
    rewrite Hdis;
    try change (max_float_exponent <? 0)%nat with false;
    match goal with
    | |- context [(max_float_exponent <? ?n)%nat] =>
        destruct (max_float_exponent <? n)%nat
    | _ => idtac
    end; loop_simpl;
    try (split; [reflexivity|discriminate]);
    (split; [|discriminate]);
    rewrite (loop_not_running rest) by reflexivity; reflexivity.
Qed.

Lemma disconnect_ends_the_loop_witness :
  _ws_connect_loop
    (mkAttempt WsFailed true false
       :: [Samples.failed_attempt; Samples.opened_attempt])
    (Samples.connected_world [Samples.ja_en] (fun _ => HttpOk))
  = _ws_connect_loop [mkAttempt WsFailed true false]
      (Samples.connected_world [Samples.ja_en] (fun _ => HttpOk))
  /\ (disconnect_during_run (mkAttempt WsFailed true false) = true ->
      delays
        (trace (exec (_ws_connect_loop
                        (mkAttempt WsFailed true false
                           :: [Samples.failed_attempt; Samples.opened_attempt]))
                  (Samples.connected_world [Samples.ja_en] (fun _ => HttpOk))))
      = delays
          (trace (Samples.connected_world [Samples.ja_en] (fun _ => HttpOk)))).
Proof.
  apply (disconnect_ends_the_loop (mkAttempt WsFailed true false)
           [Samples.failed_attempt; Samples.opened_attempt]
           (Samples.connected_world [Samples.ja_en] (fun _ => HttpOk))).
  now left.
Defined.



(** ** No profiles *)

(** X23.  With an empty list of profiles, the next and the previous key do
    nothing at all and do not raise: [next_profile] and [previous_profile]
    themselves raise [ZeroDivisionError], which the key handler catches
    before any request is sent, and [get_current_profile] answers [None]. *)
Theorem keys_are_inert_without_profiles (self : MediaKeyController.t)
    (w : world) :
  translation_profiles (client w) = [] ->
  fst (next_profile w) = Raise ZeroDivisionError
  /\ fst (previous_profile w) = Raise ZeroDivisionError
  /\ _on_key_press self media_next w = (Return tt, w)
  /\ _on_key_press self media_previous w = (Return tt, w)
  /\ get_current_profile w = (Return None, w).
Proof.
  intros H. destruct (next_profile_no_profiles w H) as [Hn Hp].
  rewrite !key_press_unfold. cbn [first_call]. rewrite Hn, Hp.
  repeat split.
  unfold get_current_profile, bind, get_self, ret. rewrite H.
  change (Z.of_nat (length (@nil Profile))) with 0%Z.
  replace ((0 <=? current_profile_index (client w))%Z
           && (current_profile_index (client w) <? 0)%Z) with false;
    [reflexivity|].
  destruct (Z.leb_spec 0 (current_profile_index (client w))),
    (Z.ltb_spec (current_profile_index (client w)) 0);
    try reflexivity; lia.
Qed.

Lemma keys_are_inert_without_profiles_witness :
  fst (next_profile (Samples.fresh_world [] (fun _ => HttpOk)))
  = Raise ZeroDivisionError
  /\ fst (previous_profile (Samples.fresh_world [] (fun _ => HttpOk)))
     = Raise ZeroDivisionError
  /\ _on_key_press Samples.controller media_next
       (Samples.fresh_world [] (fun _ => HttpOk))
     = (Return tt, Samples.fresh_world [] (fun _ => HttpOk))
  /\ _on_key_press Samples.controller media_previous
       (Samples.fresh_world [] (fun _ => HttpOk))
     = (Return tt, Samples.fresh_world [] (fun _ => HttpOk))
  /\ get_current_profile (Samples.fresh_world [] (fun _ => HttpOk))
     = (Return None, Samples.fresh_world [] (fun _ => HttpOk)).
Proof.
  apply (keys_are_inert_without_profiles Samples.controller
           (Samples.fresh_world [] (fun _ => HttpOk))).
  reflexivity.
Defined.

End SessionBehaviour.

(* ===================================================================== *)
(** * Properties of the XSOverlay client                                  *)
(* ===================================================================== *)

Module XSOBehaviour.
Import Py XSOClient XSONotions.

(** ** Sending *)

Lemma send_data_outcome (data : message) (send_ok : bool) (self : t) :
  _send_data data send_ok self
  = if _is_connected self && _ws self && send_ok
    then inr [data]
    else inl (if _ws self && _is_connected self then SocketError
              else RuntimeError).
Proof.
  unfold _send_data.
  destruct (_ws self), (_is_connected self), send_ok; reflexivity.
Qed.

(** X20.  Each public sender of the XSOverlay client returns [True] exactly
    when the client is connected, has a socket and the socket accepts the
    message, and then exactly one message has gone out, carrying the
    client's [app_name] as sender and ["xsoverlay"] as target; in every
    other case it returns [False] and nothing has gone out. *)
Theorem sender_result_matches_what_was_sent (c : sender_call)
    (send_ok : bool) (self : t) :
  fst (send c send_ok self) = _is_connected self && _ws self && send_ok
  /\ if fst (send c send_ok self)
     then exists m,
            snd (send c send_ok self) = [m]
            /\ sender m = app_name self /\ target m = "xsoverlay"
     else snd (send c send_ok self) = [].
Proof.
  destruct c; cbn [send];
    unfold send_translation_notification, send_status, update_status_simple,
      send_notification;
    rewrite ?send_data_outcome;
    destruct (_is_connected self), (_ws self), send_ok; cbn;
    (split; [reflexivity|]); try reflexivity;
    eexists; repeat split.
Qed.

(** ** The reconnect loop *)

Lemma on_callbacks_running (cbs : list callback) :
  forall c, _is_running (on_callbacks cbs c) = _is_running c.
Proof.
  induction cbs as [|cb cbs IH]; intros c; [reflexivity|].
  cbn [on_callbacks]. rewrite IH. now destruct cb.
Qed.

Ltac xso_unfold :=
  cbn [_ws_connect_loop];
  cbv beta iota zeta delta
    [bind ret raise try_except when get_self update_self emit
     except_Exception disconnect run_forever backoff_delay].

Ltac xso_simpl :=
  cbn -[Nat.ltb YukaconeClient.max_float_exponent Qmin Qmult inject_Z Z.pow
        Z.of_nat on_callbacks].

(** Entered running or not connected, the loop is left not connected. *)
Lemma loop_leaves_disconnected (script : list attempt) :
  forall w,
    _is_connected (client w) = false
    \/ (_is_running (client w) = true /\ script <> []) ->
    _is_connected (client (snd (_ws_connect_loop script w))) = false.
Proof.
  induction script as [|a script IH]; intros w H.
  - destruct H as [H | [_ H]]; [exact H|congruence].
  - xso_unfold.
    destruct (_is_running (client w)) eqn:Hrun; xso_simpl.
    2:{ destruct H as [H | [H _]]; [exact H|discriminate]. }
    destruct (raised a); xso_simpl;
      destruct (disconnect_during_run a); xso_simpl;
      rewrite ?on_callbacks_running; xso_simpl; rewrite ?Hrun; xso_simpl;
      try reflexivity;
      match goal with
      | |- context [(YukaconeClient.max_float_exponent <? ?n)%nat] =>
          destruct (YukaconeClient.max_float_exponent <? n)%nat
      end; xso_simpl; try reflexivity;
      destruct (disconnect_during_sleep a); xso_simpl;
      apply IH; left; reflexivity.
Qed.

(** X21.  Whenever the reconnect loop of the XSOverlay client has gone
    through at least one round, whatever happened in the rounds (opened
    connections, errors, exceptions, disconnects), the client reports not
    connected once the loop is back between rounds or has ended, and every
    public sender then returns [False] and sends nothing. *)
Theorem not_connected_between_rounds (a : attempt) (rest : list attempt)
    (w : world) (c : sender_call) (send_ok : bool) :
  _is_running (client w) = true ->
  is_connected (client (snd (_ws_connect_loop (a :: rest) w))) = false
  /\ send c send_ok (client (snd (_ws_connect_loop (a :: rest) w)))
     = (false, []).
Proof.
  intros Hrun.
  assert (H : _is_connected (client (snd (_ws_connect_loop (a :: rest) w)))
              = false).
  { apply loop_leaves_disconnected. right. split; [exact Hrun|discriminate]. }
  split; [exact H|].
  destruct c; cbn [send];
    unfold send_translation_notification, send_status, update_status_simple,
      send_notification;
    now rewrite H.
Qed.

Lemma not_connected_between_rounds_witness :
  is_connected
    (client
       (snd (_ws_connect_loop
               (mkAttempt [OnOpen; OnClose] false false false :: [])
               (snd (connect (mkWorld (__init__ "Bridge" 3 30) []))))))
  = false
  /\ send (SendStatus Samples.ja_en true default_source_app) true
       (client
          (snd (_ws_connect_loop
                  (mkAttempt [OnOpen; OnClose] false false false :: [])
                  (snd (connect (mkWorld (__init__ "Bridge" 3 30) []))))))
     = (false, []).
Proof.
  apply (not_connected_between_rounds
           (mkAttempt [OnOpen; OnClose] false false false) []
           (snd (connect (mkWorld (__init__ "Bridge" 3 30) [])))
           (SendStatus Samples.ja_en true default_source_app) true).
  reflexivity.
Defined.

End XSOBehaviour.

(* ===================================================================== *)
(** * Properties of the start-up sequence                                 *)
(* ===================================================================== *)

Module BridgeBehaviour.
Import Py YukaconeClient SessionSpec SessionNotions SessionProofs Bridge.

Lemma emit_frame (e : event) (w : world) :
  client_event e -> frame w (exec (emit e) w).
Proof.
  intros He. unfold exec, emit. cbn [snd].
  split; cbn; try reflexivity.
  exists [e]. split; [reflexivity|]. constructor; [exact He|constructor].
Qed.

(** X22.  On a freshly constructed client, whatever the control endpoint
    answers: with at least one profile, [initialize] returns normally,
    leaves the client at profile 0 and muted, and the last thing it does is
    to report the first profile as muted to XSOverlay, which is the client's
    state; with no profile at all it raises [IndexError]. *)
Theorem initialize_reports_the_client_state (profiles : list Profile)
    (callback : bool) (delay max_delay : Q) (net : nat -> response) :
  match profiles with
  | [] =>
      fst (initialize
             (mkWorld (__init__ profiles callback delay max_delay) net 0 []))
      = Raise IndexError
  | p0 :: _ =>
      fst (initialize
             (mkWorld (__init__ profiles callback delay max_delay) net 0 []))
      = Return tt
      /\ current_profile_index
           (client (exec initialize
                      (mkWorld (__init__ profiles callback delay max_delay)
                         net 0 []))) = 0%Z
      /\ is_muted
           (client (exec initialize
                      (mkWorld (__init__ profiles callback delay max_delay)
                         net 0 []))) = true
      /\ exists evs,
           trace (exec initialize
                    (mkWorld (__init__ profiles callback delay max_delay)
                       net 0 []))
           = evs ++ [XsoSendStatus p0 true]
           /\ Forall client_event evs
  end.
Proof.
  set (w := mkWorld (__init__ profiles callback delay max_delay) net 0 []).
  destruct (set_translation_profile_spec 0 w)
    as (r1 & w1 & Heq1 & Hfr1 & Hm1 & Hi1 & _).
  assert (Hi1' : current_profile_index (client w1) = 0%Z)
    by (rewrite Hi1; now destruct r1).
  pose proof (emit_frame (Slept 1) w1 eq_refl) as Hfr2.
  set (w2 := exec (emit (Slept 1)) w1) in *.
  destruct (set_mute_spec true w2) as (r3 & w3 & Heq3 & Hfr3 & Hi3 & _ & Hm3 & _).
  assert (Hm3' : is_muted (client w3) = true).
  { rewrite Hm3. destruct r3; [reflexivity|]. unfold w2, exec, emit.
    cbn [snd client]. rewrite Hm1. reflexivity. }
  assert (Hp3 : translation_profiles (client w3) = profiles).
  { rewrite (frame_profiles _ _ Hfr3), (frame_profiles _ _ Hfr2),
      (frame_profiles _ _ Hfr1). reflexivity. }
  assert (Hrun : initialize w =
    match nth_error profiles 0 with
    | Some p => (Return tt, exec (emit (XsoSendStatus p true)) w3)
    | None => (Raise IndexError, w3)
    end).
  { unfold initialize, bind. rewrite Heq1.
    change (emit (Slept 1) w1) with (Return tt, w2). cbv beta iota.
    rewrite Heq3. unfold get_self. cbv beta iota. rewrite Hp3.
    destruct (nth_error profiles 0); reflexivity. }
  unfold exec at 1 2 3. rewrite Hrun.
  destruct profiles as [|p0 rest]; cbn [nth_error fst snd]; [reflexivity|].
  split; [reflexivity|]. unfold exec, emit. cbn [snd client trace].
  split; [|split; [exact Hm3'|]].
  - rewrite Hi3. unfold w2, exec, emit. cbn [snd client]. exact Hi1'.
  - destruct (frame_trace _ _ (frame_trans _ _ _ Hfr1
                                 (frame_trans _ _ _ Hfr2 Hfr3)))
      as (evs & Ht & Hevs).
    exists evs. split; [now rewrite Ht|exact Hevs].
Qed.

End BridgeBehaviour.
